(** * Training orchestration of the nnabla example repository

    A shallow embedding of the four sources
      - GANs/pix2pixHD/trainer.py
      - GANs/stylegan2-distillation/train.py
      - speech-synthesis/TTS/waveglow/hparams.py
      - speech-synthesis/TTS/FastSpeech2/model/decoder.py
    followed by the properties established about them.

    Calls into the deep-learning framework are observable events; the
    framework's numerical behaviour is left abstract (interface
    [Framework] below).  Python integers are [Z], strings are [string],
    dictionaries that keep insertion order are association lists. *)

From Stdlib Require Import List ZArith Lia Bool String Ascii.
From Stdlib Require Import DecimalString DecimalZ DecimalPos.
Import ListNotations.

Set Implicit Arguments.

Open Scope string_scope.
Open Scope Z_scope.
Open Scope list_scope.

(** ** Monads shared by the embeddings *)

Class Monad (m : Type -> Type) : Type := {
  ret : forall {A}, A -> m A;
  bind : forall {A B}, m A -> (A -> m B) -> m B
}.

Declare Scope monad_scope.
Delimit Scope monad_scope with monad.
Notation "x <- c1 ;; c2" := (bind c1 (fun x => c2))
  (at level 100, c1 at next level, right associativity) : monad_scope.
Notation "c1 ;; c2" := (bind c1 (fun _ => c2))
  (at level 100, right associativity) : monad_scope.
Open Scope monad_scope.

(** ** Python built-ins used by the sources *)

Module Py.

(** The exceptions the modelled code can raise by itself. *)
Inductive exn : Type :=
| IndexError
| AttributeError (name : string).

Inductive result (A : Type) : Type :=
| Ok (a : A)
| Raise (e : exn).
Arguments Ok {A} a.
Arguments Raise {A} e.

Definition result_bind {A B} (r : result A) (k : A -> result B) : result B :=
  match r with
  | Ok a => k a
  | Raise e => Raise e
  end.

#[export] Instance result_monad : Monad result :=
  {| ret := @Ok; bind := @result_bind |}.

(** [s.split("/")]: the components between the separators; never empty. *)
Fixpoint split (sep : ascii) (s : string) : list string :=
  match s with
  | EmptyString => [EmptyString]
  | String c rest =>
      if Ascii.eqb c sep then EmptyString :: split sep rest
      else match split sep rest with
           | [] => [String c EmptyString]
           | h :: t => String c h :: t
           end
  end.

(** [l[i]] with Python's negative indices. *)
Definition getitem {A} (l : list A) (i : Z) : result A :=
  let n := Z.of_nat (List.length l) in
  let j := if i <? 0 then i + n else i in
  if (0 <=? j) && (j <? n) then
    match nth_error l (Z.to_nat j) with
    | Some x => Ok x
    | None => Raise IndexError
    end
  else Raise IndexError.

(** [s.startswith(p)]. *)
Definition startswith (s p : string) : bool := String.prefix p s.

(** [s.endswith(p)], as a proposition. *)
Definition endswith (s p : string) : Prop := exists u, s = (u ++ p)%string.

(** [max(a, b)] on integers: the first argument unless the second is
    strictly larger. *)
Definition max (a b : Z) : Z := if a <? b then b else a.

(** [range(n)]. *)
Definition range (n : Z) : list Z := map Z.of_nat (seq 0 (Z.to_nat n)).

(** [a // b] for a positive divisor. *)
Definition floordiv (a : Z) (b : positive) : Z := a / Z.pos b.

(** [str(z)] and the f-string field [{z}]. *)
Definition str (z : Z) : string := NilZero.string_of_int (Z.to_int z).

Fixpoint zeros (n : nat) : string :=
  match n with
  | O => EmptyString
  | S k => String "0" (zeros k)
  end.

Definition zfill (width : nat) (digits : string) : string :=
  (zeros (width - String.length digits) ++ digits)%string.

(** ['{:03d}'.format(z)]: sign first, then zeros up to width 3. *)
Definition format_03d (z : Z) : string :=
  match Z.to_int z with
  | Decimal.Pos d => zfill 3 (NilZero.string_of_uint d)
  | Decimal.Neg d => String "-" (zfill 2 (NilZero.string_of_uint d))
  end.

(** [os.path.join(a, b)] (posixpath, two arguments). *)
Definition ends_with_slash (a : string) : bool :=
  match String.get (String.length a - 1) a with
  | Some c => Ascii.eqb c "/"
  | None => false
  end.

Definition os_path_join (a b : string) : string :=
  if startswith b "/" then b
  else if (String.eqb a "") || ends_with_slash a then (a ++ b)%string
  else (a ++ "/" ++ b)%string.

(** A dictionary comprehension [{k: v for k, v in items if cond}] whose
    condition may raise: the first raising entry aborts the whole
    comprehension. *)
Fixpoint dict_comp {K V} (cond : K -> V -> result bool)
         (items : list (K * V)) : result (list (K * V)) :=
  match items with
  | [] => Ok []
  | (k, v) :: rest =>
      b <- cond k v ;;
      r <- dict_comp cond rest ;;
      ret (if b : bool then (k, v) :: r else r)
  end.

End Py.
Import Py.

(** ** GANs/pix2pixHD/trainer.py: [get_params_startswith] *)

Module GetParams.

(** [k.split("/")[-2] != "instance_normalization"] *)
Definition not_instance_norm (k : string) : result bool :=
  c <- getitem (split "/" k) (-2) ;;
  ret (negb (String.eqb c "instance_normalization")).

(** The first argument is the value of [nn.get_parameters()], an ordered
    dictionary from parameter names to variables. *)
Definition get_params_startswith {V} (nn_get_parameters : list (string * V))
           (str : string) (ignore_in : bool) : result (list (string * V)) :=
  let params := nn_get_parameters in
  params <- (if ignore_in
             then dict_comp (fun k _ => not_instance_norm k) params
             else ret params) ;;
  ret (filter (fun kv => startswith (fst kv) str) params).

(** What the key test reads: the component before the last one, when the
    key has one. *)
Definition second_to_last (k : string) : option string :=
  match rev (split "/" k) with
  | _ :: c :: _ => Some c
  | _ => None
  end.

Definition has_scope (k : string) : Prop := second_to_last k <> None.

(** The test of the first comprehension, read off [second_to_last]. *)
Definition keeps (k : string) : bool :=
  match second_to_last k with
  | Some c => negb (String.eqb c "instance_normalization")
  | None => true
  end.

End GetParams.

(** ** speech-synthesis/TTS/waveglow/hparams.py *)

Module WaveGlow.

(** Values of keyword arguments.  A float is kept as the decimal literal
    of the source, [mantissa * 10 ^ exponent]. *)
#[warnings="-register-all"]
Inductive value : Type :=
| VStr (s : string)
| VInt (z : Z)
| VFloat (mantissa exponent : Z)
| VList (l : list value)
| VTuple (l : list value).

(** Modelled from the spec: the class [HParams] lives in utils/hparams.py,
    outside the four files embedded here.  The specification calls it a
    hyperparameter object: it is the list of the keyword arguments it was
    built from, read back by attribute name. *)
Definition HParams : Type := list (string * value).

Fixpoint getattr (h : HParams) (name : string) : option value :=
  match h with
  | [] => None
  | (k, v) :: rest => if String.eqb k name then Some v else getattr rest name
  end.

Definition hparams : HParams :=
  [ ("data_dir", VStr "./data/LJSpeech-1.1/");
    ("save_data_dir", VStr "./data/LJSpeech-1.1/waveglow");
    ("out_variables", VList [VStr "audio"]);
    ("sr", VInt 22050);
    ("n_fft", VInt 1024);
    ("n_mels", VInt 80);
    ("mel_fmin", VFloat 0 0);
    ("mel_fmax", VFloat 8000 0);
    ("hop_length", VInt 256);
    ("win_length", VInt 1024);
    ("n_flows", VInt 12);
    ("n_groups", VInt 8);
    ("n_early_every", VInt 4);
    ("n_early_size", VInt 2);
    ("sigma", VFloat 1 0);
    ("segment_length", VInt 8000);
    ("wn_n_layers", VInt 8);
    ("wn_kernel_size", VInt 3);
    ("wn_n_channels", VInt 256);
    ("seed", VInt 123456);
    ("batch_size", VInt 4);
    ("epoch", VInt 1001);
    ("print_frequency", VInt 20);
    ("epochs_per_checkpoint", VInt 50);
    ("output_path", VStr "./log/waveglow/");
    ("weight_decay", VFloat 0 0);
    ("max_norm", VFloat 34028234663852886 22);
    ("alpha", VFloat 1 (-4));
    ("anneal_factor", VFloat 1 (-1));
    ("anneal_steps", VTuple []) ].

Definition is_int (v : value) : bool :=
  match v with
  | VInt _ => true
  | _ => false
  end.

(** The integer-valued keyword arguments, in source order. *)
Definition int_fields (h : HParams) : list (string * value) :=
  filter (fun kv => is_int (snd kv)) h.

End WaveGlow.

(** ** The framework as the two trainers see it *)

Inductive Solver : Type := g_solver | d_solver.
Inductive Loss : Type := g_loss | d_loss.

(** What the trainers take from nnabla, the operating system and the
    logger.  Numerical behaviour stays abstract. *)
Class Framework : Type := {
  (** learning rates (Python floats) *)
  LR : Type;
  (** the literal [0.] *)
  lr_zero : LR;
  (** the global parameter store behind [nn.get_parameters()] *)
  Params : Type;
  (** effect of [nn.load_parameters(path)] on the store *)
  nn_load_parameters : string -> Params -> Params;
  (** effect of [solver.update()] at the solver's learning rate
      ([None]: the rate the solver was created with) *)
  solver_update : Solver -> option LR -> Params -> Params;
  (** [os.path.exists] *)
  os_path_exists : string -> bool;
  (** [np.random.RandomState] *)
  Rng : Type;
  RandomState : Z -> Rng
}.

(** [comm]: the communicator; [n_procs] is at least one. *)
Record Comm : Type := {
  n_procs : positive;
  rank : Z
}.

(** A data iterator, as far as the trainers read it; batches are not
    empty. *)
Record DataIterator : Type := {
  _size : Z;
  _batch_size : positive
}.

Section Events.
Context {F : Framework}.

(** Calls that leave the trainer, in program order.  Arguments that the
    properties below do not read (tensors, images, progress bars) are left
    out. *)
Inductive Event : Type :=
(** [logger.warn(msg)] *)
| LoggerWarn (msg : string)
(** [nn.load_parameters(path)] *)
| LoadParameters (path : string)
(** [s.set_parameters(get_params_startswith(prefix), reset=..,
    retain_state=..)]; the helper is taken to return its dictionary
    (module [GetParams] treats it by itself) *)
| SetParameters (s : Solver) (prefix : string) (reset retain_state : bool)
(** [lr_schduler(epoch)] *)
| SchedulerCall (epoch : Z)
(** [s.set_learning_rate(lr)] *)
| SetLearningRate (s : Solver) (lr : LR)
(** [reporter.epoch_start(epoch, progress_iterator)] (pix2pixHD) *)
| ReporterEpochStart (epoch : Z)
(** [reporter.start(progress_iterator)] (stylegan2-distillation) *)
| ReporterStart
(** [self.data_iter.next()] and the assignments of the batch to the inputs *)
| DataNext
(** [fake.forward()] *)
| FakeForward
(** [s.zero_grad()] *)
| ZeroGrad (s : Solver)
(** [l.forward()] *)
| Forward (l : Loss)
(** [l.backward(clear_buffer=True)] *)
| Backward (l : Loss)
(** [self.comm.all_reduce([x.grad for x in s.get_parameters().values()],
    division=.., inplace=..)] *)
| AllReduce (s : Solver) (division inplace : bool)
(** [s.update()] *)
| Update (s : Solver)
(** [unlinked_fake.grad.zero()] *)
| UnlinkedFakeGradZero
(** [fake.backward(grad=None, clear_buffer=True)] *)
| FakeBackward
(** [reporter()] *)
| ReporterCall
(** [reporter.epoch_end(show_images, epoch)] (pix2pixHD) *)
| ReporterEpochEnd (epoch : Z)
(** [reporter.step(epoch, show_images)] (stylegan2-distillation) *)
| ReporterStep (epoch : Z)
(** [nn.save_parameters(path)] *)
| SaveParameters (path : string).

(** Mutable state a run of [train] works on. *)
Record World : Type := {
  params : Params;
  g_lr : option LR;
  d_lr : option LR
}.

Definition lr_of (w : World) (s : Solver) : option LR :=
  match s with
  | g_solver => g_lr w
  | d_solver => d_lr w
  end.

(** State and output: a computation returns a value, a new world and the
    events it performed. *)
Definition M (A : Type) : Type := World -> (A * World) * list Event.

Definition M_ret {A} (a : A) : M A := fun w => ((a, w), []).

Definition M_bind {A B} (m : M A) (k : A -> M B) : M B :=
  fun w =>
    let '((a, w1), t1) := m w in
    let '((b, w2), t2) := k a w1 in
    ((b, w2), t1 ++ t2).

#[export] Instance M_monad : Monad M := {| ret := @M_ret; bind := @M_bind |}.

Definition emit (e : Event) : M unit := fun w => ((tt, w), [e]).

Definition modify (f : World -> World) : M unit := fun w => ((tt, f w), []).

Definition when (b : bool) (m : M unit) : M unit := if b then m else ret tt.

(** [for x in l: body] *)
Fixpoint for_each {A} (l : list A) (body : A -> M unit) : M unit :=
  match l with
  | [] => ret tt
  | x :: rest => body x ;; for_each rest body
  end.

Definition trace {A} (m : M A) (w : World) : list Event := snd (m w).
Definition world_after {A} (m : M A) (w : World) : World := snd (fst (m w)).

(** *** Framework calls *)

(** [S.Adam(beta1=0.5)]: a solver at its default learning rate. *)
Definition new_Adam (s : Solver) : M unit :=
  modify (fun w =>
    match s with
    | g_solver => {| params := params w; g_lr := None; d_lr := d_lr w |}
    | d_solver => {| params := params w; g_lr := g_lr w; d_lr := None |}
    end).

(** [s.set_learning_rate(lr)] *)
Definition set_learning_rate (s : Solver) (lr : LR) : M unit :=
  modify (fun w =>
    match s with
    | g_solver => {| params := params w; g_lr := Some lr; d_lr := d_lr w |}
    | d_solver => {| params := params w; g_lr := g_lr w; d_lr := Some lr |}
    end) ;;
  emit (SetLearningRate s lr).

(** [s.update()] *)
Definition update (s : Solver) : M unit :=
  modify (fun w =>
    {| params := solver_update s (lr_of w s) (params w);
       g_lr := g_lr w; d_lr := d_lr w |}) ;;
  emit (Update s).

(** [nn.load_parameters(path)] *)
Definition load_parameters (path : string) : M unit :=
  modify (fun w =>
    {| params := nn_load_parameters path (params w);
       g_lr := g_lr w; d_lr := d_lr w |}) ;;
  emit (LoadParameters path).

(** Truth value of [load_path], which is [None] or a string. *)
Definition truthy (p : option string) : bool :=
  match p with
  | None => false
  | Some s => negb (String.eqb s "")
  end.

Definition warn_message (path : string) : string :=
  ("Path to load params is not found. Loading params is skipped. ("
     ++ path ++ ")")%string.

(** *** Observations on traces *)

Definition is_solver_step (e : Event) : bool :=
  match e with
  | ZeroGrad _ | Forward _ | Backward _ | Update _ => true
  | _ => false
  end.

Definition is_update (e : Event) : bool :=
  match e with
  | Update _ => true
  | _ => false
  end.

Definition is_all_reduce (e : Event) : bool :=
  match e with
  | AllReduce _ _ _ => true
  | _ => false
  end.

Definition is_save (e : Event) : bool :=
  match e with
  | SaveParameters _ => true
  | _ => false
  end.

Definition is_load_or_warn (e : Event) : bool :=
  match e with
  | LoadParameters _ | LoggerWarn _ => true
  | _ => false
  end.

Definition is_lr_event (e : Event) : bool :=
  match e with
  | SchedulerCall _ | SetLearningRate _ _ => true
  | _ => false
  end.


(** [e] is performed immediately before [e'] somewhere in [t]. *)
Definition adjacent (e e' : Event) (t : list Event) : Prop :=
  exists pre post, t = pre ++ e :: e' :: post.



(** *** The shape shared by the traces of both trainers *)

Definition all_reduce_events (multi : bool) (s : Solver) : list Event :=
  if multi then [AllReduce s false false] else [].

(** Events of one pass of the inner loop; [multi] is [comm.n_procs > 1]. *)
Definition iteration_events (multi : bool) : list Event :=
  [DataNext; FakeForward; ZeroGrad d_solver; Forward d_loss; Backward d_loss]
  ++ all_reduce_events multi d_solver
  ++ [Update d_solver; UnlinkedFakeGradZero; ZeroGrad g_solver;
      Forward g_loss; Backward g_loss; FakeBackward]
  ++ all_reduce_events multi g_solver
  ++ [Update g_solver; ReporterCall].

(** What a run depends on: how the two trainers differ, and the inputs. *)
Record Plan : Type := {
  plan_load_path : option string;
  plan_multi : bool;
  plan_rank : Z;
  plan_fix_global_epoch : Z;
  plan_scheduler : Z -> LR;
  plan_epochs : Z;
  plan_iterations : Z;
  plan_period : Z;
  plan_save_path : string;
  plan_report_start : Z -> Event;
  plan_report_end : Z -> Event
}.

Definition load_events (load_path : option string) : list Event :=
  match load_path with
  | Some path =>
      if String.eqb path "" then []
      else if os_path_exists path then [LoadParameters path]
           else [LoggerWarn (warn_message path)]
  | None => []
  end.

Definition setup_events : list Event :=
  [SetParameters g_solver "generator/local" true false;
   SetParameters d_solver "discriminator" true false].

Definition lr_events (p : Plan) (epoch : Z) : list Event :=
  [SchedulerCall epoch;
   SetLearningRate g_solver (plan_scheduler p epoch);
   SetLearningRate d_solver (plan_scheduler p epoch)].

Definition checkpoint_events (p : Plan) (epoch : Z) : list Event :=
  if (epoch mod plan_period p =? 0) && (plan_rank p =? 0)
  then [SaveParameters
          (os_path_join (plan_save_path p)
                        ("param_" ++ format_03d epoch ++ ".h5")%string)]
  else [].

Definition final_events (p : Plan) : list Event :=
  if plan_rank p =? 0
  then [SaveParameters (os_path_join (plan_save_path p) "param_final.h5")]
  else [].

Definition epoch_events (p : Plan) (epoch : Z) : list Event :=
  (if epoch =? plan_fix_global_epoch p
   then [SetParameters g_solver "generator" false true] else [])
  ++ lr_events p epoch
  ++ [plan_report_start p epoch]
  ++ flat_map (fun _ => iteration_events (plan_multi p))
              (range (plan_iterations p))
  ++ [plan_report_end p epoch]
  ++ checkpoint_events p epoch.

Definition plan_events (p : Plan) : list Event :=
  load_events (plan_load_path p)
  ++ setup_events
  ++ flat_map (epoch_events p) (range (plan_epochs p))
  ++ final_events p.

(** The reporter's calls open and close an epoch and are nothing else. *)
Definition is_report (e : Event) : bool :=
  match e with
  | ReporterEpochStart _ | ReporterStart
  | ReporterEpochEnd _ | ReporterStep _ => true
  | _ => false
  end.


Definition well_formed (p : Plan) : Prop :=
  forall e, is_report (plan_report_start p e) = true
            /\ is_report (plan_report_end p e) = true.

End Events.

(** ** GANs/pix2pixHD/trainer.py: [Trainer] *)

Module Pix2pixHD.

Section Trainer.
Context {F : Framework}.

Record Trainer : Type := {
  batch_size : Z;
  image_shape : list Z;
  data_iter : DataIterator;
  max_epoch : Z;
  learning_rate : LR;
  comm : Comm;
  fix_global_epoch : Z;
  d_n_scales : Z;
  g_n_scales : Z;
  n_label_ids : Z;
  use_encoder : bool;
  load_path : option string;
  save_path : string
}.

(** Code of the repository that the trainer imports ([models], [utils],
    [data_iterator]) and the iterator's [slice], taken as parameters. *)
Class Imports : Type := {
  DataList : Type;
  create_data_iterator :
    Z -> DataList -> list Z -> Rng -> bool -> DataIterator;
  slice : DataIterator -> Rng -> positive -> Z -> DataIterator;
  (** lines 52-87: variables, generator, discriminator and losses are
      declared; parameters are registered in the store *)
  define_graph : Trainer -> Params -> Params;
  (** [LearningRateScheduler(learning_rate, max_epoch)], called on an
      epoch number *)
  LearningRateScheduler : LR -> Z -> Z -> LR
}.
Context {I : Imports}.

Definition __init__ (batch_size : Z) (base_image_shape : list Z)
           (data_list : DataList) (max_epoch : Z) (learning_rate : LR)
           (comm : Comm) (fix_global_epoch : Z)
           (d_n_scales g_n_scales n_label_ids : Z)
           (use_encoder : bool) (load_path : option string)
           (save_path : string) (rng : option Rng) (is_data_flip : bool)
  : Trainer :=
  let rng := match rng with None => RandomState 313 | Some r => r end in
  let image_shape := map (fun x => x * g_n_scales) base_image_shape in
  let data_iter :=
    create_data_iterator batch_size data_list image_shape rng is_data_flip in
  let data_iter :=
    if 1 <? Z.pos (n_procs comm)
    then slice data_iter rng (n_procs comm) (rank comm)
    else data_iter in
  {| batch_size := batch_size;
     image_shape := image_shape;
     data_iter := data_iter;
     max_epoch := max_epoch;
     learning_rate := learning_rate;
     comm := comm;
     fix_global_epoch := Py.max fix_global_epoch 0;
     d_n_scales := d_n_scales;
     g_n_scales := g_n_scales;
     n_label_ids := n_label_ids;
     use_encoder := use_encoder;
     load_path := load_path;
     save_path := save_path |}.

(** lines 90-95 *)
Definition load_step (self : Trainer) : M unit :=
  if truthy (load_path self) then
    match load_path self with
    | Some path =>
        if negb (os_path_exists path)
        then emit (LoggerWarn (warn_message path))
        else load_parameters path
    | None => ret tt
    end
  else ret tt.

(** lines 98-102 *)
Definition setup_solvers : M unit :=
  new_Adam g_solver ;;
  emit (SetParameters g_solver "generator/local" true false) ;;
  new_Adam d_solver ;;
  emit (SetParameters d_solver "discriminator" true false).

(** lines 116-129 *)
Definition epoch_begin (self : Trainer) (lr_schduler : Z -> LR)
           (epoch : Z) : M (list Z) :=
  when (epoch =? fix_global_epoch self)
       (emit (SetParameters g_solver "generator" false true)) ;;
  emit (SchedulerCall epoch) ;;
  let lr := lr_schduler epoch in
  set_learning_rate g_solver lr ;;
  set_learning_rate d_solver lr ;;
  let progress_iterator :=
    range (floordiv (_size (data_iter self))
                    (_batch_size (data_iter self))) in
  emit (ReporterEpochStart epoch) ;;
  ret progress_iterator.

(** lines 132-168: the body of the inner loop *)
Definition iteration (self : Trainer) (i : Z) : M unit :=
  emit DataNext ;;
  emit FakeForward ;;
  (* update discriminator *)
  emit (ZeroGrad d_solver) ;;
  emit (Forward d_loss) ;;
  emit (Backward d_loss) ;;
  when (1 <? Z.pos (n_procs (comm self)))
       (emit (AllReduce d_solver false false)) ;;
  update d_solver ;;
  (* update generator *)
  emit UnlinkedFakeGradZero ;;
  emit (ZeroGrad g_solver) ;;
  emit (Forward g_loss) ;;
  emit (Backward g_loss) ;;
  emit FakeBackward ;;
  when (1 <? Z.pos (n_procs (comm self)))
       (emit (AllReduce g_solver false false)) ;;
  update g_solver ;;
  emit ReporterCall.

Definition checkpoint_name (epoch : Z) : string :=
  ("param_" ++ format_03d epoch ++ ".h5")%string.

(** lines 171-179 *)
Definition epoch_end (self : Trainer) (epoch : Z) : M unit :=
  emit (ReporterEpochEnd epoch) ;;
  when ((epoch mod 10 =? 0) && (rank (comm self) =? 0))
       (emit (SaveParameters
                (os_path_join (save_path self) (checkpoint_name epoch)))).

(** lines 115-179: one pass of the epoch loop *)
Definition run_epoch (self : Trainer) (lr_schduler : Z -> LR)
           (epoch : Z) : M unit :=
  progress_iterator <- epoch_begin self lr_schduler epoch ;;
  for_each progress_iterator (iteration self) ;;
  epoch_end self epoch.

(** lines 181-182 *)
Definition final_save (self : Trainer) : M unit :=
  when (rank (comm self) =? 0)
       (emit (SaveParameters
                (os_path_join (save_path self) "param_final.h5"))).

(** lines 98-182: everything after the loading of parameters *)
Definition training (self : Trainer) : M unit :=
  setup_solvers ;;
  let lr_schduler :=
    LearningRateScheduler (learning_rate self) (max_epoch self) in
  for_each (range (max_epoch self)) (run_epoch self lr_schduler) ;;
  final_save self.

(** lines 52-87 *)
Definition declare_graph (self : Trainer) : M unit :=
  modify (fun w =>
    {| params := define_graph self (params w);
       g_lr := g_lr w; d_lr := d_lr w |}).

Definition train (self : Trainer) : M unit :=
  declare_graph self ;;
  load_step self ;;
  training self.

(** Inner-loop passes per epoch, and in a whole run. *)
Definition iterations_per_epoch (self : Trainer) : Z :=
  floordiv (_size (data_iter self)) (_batch_size (data_iter self)).

Definition total_iterations (self : Trainer) : nat :=
  (Z.to_nat (max_epoch self) * Z.to_nat (iterations_per_epoch self))%nat.

Definition scheduler (self : Trainer) : Z -> LR :=
  LearningRateScheduler (learning_rate self) (max_epoch self).

Definition plan (self : Trainer) : Plan :=
  {| plan_load_path := load_path self;
     plan_multi := 1 <? Z.pos (n_procs (comm self));
     plan_rank := rank (comm self);
     plan_fix_global_epoch := fix_global_epoch self;
     plan_scheduler := scheduler self;
     plan_epochs := max_epoch self;
     plan_iterations := iterations_per_epoch self;
     plan_period := 10;
     plan_save_path := save_path self;
     plan_report_start := ReporterEpochStart;
     plan_report_end := ReporterEpochEnd |}.

End Trainer.

End Pix2pixHD.

(** ** GANs/stylegan2-distillation/train.py: [Trainer] *)

Module Distillation.

(** [tconf] and [mconf], as far as the trainer reads them; the batch size
    is at least one. *)
Module Conf.
Section Conf.
Context {F : Framework}.

Record TrainConf : Type := {
  random_seed : Z;
  batch_size : positive;
  fix_global_epoch : Z;
  load_path : option string;
  save_path : string;
  base_lr : LR;
  lr_decay_starts : Z;
  max_epochs : Z;
  lambda_feat : LR;
  lambda_perceptual : LR
}.

Record ModelConf : Type := {
  g_n_scales : Z;
  d_n_scales : Z;
  base_image_shape : list Z;
  lg_channels : Z;
  gg_channels : Z;
  lg_num_residual_loop : Z;
  gg_num_residual_loop : Z
}.
End Conf.
End Conf.
Import Conf (TrainConf, ModelConf).

Section Trainer.
Context {F : Framework}.

Record Trainer : Type := {
  train_conf : TrainConf;
  model_conf : ModelConf;
  bs : positive;
  image_shape : list Z;
  data_iter : DataIterator;
  comm : Comm;
  fix_global_epoch : Z;
  use_encoder : bool;
  load_path : option string;
  face_morph : bool
}.

(** Code of the repository that the trainer imports ([utils],
    [models]), taken as parameters. *)
Class Imports : Type := {
  (** lines 43-82 *)
  define_graph : Trainer -> Params -> Params;
  (** [LinearDecayScheduler(base_lr, 0., start_iter, end_iter)], called
      on an epoch number *)
  LinearDecayScheduler : LR -> LR -> Z -> Z -> Z -> LR
}.
Context {I : Imports}.

Definition __init__ (tconf : TrainConf) (mconf : ModelConf) (comm : Comm)
           (di : DataIterator) (face_morph : bool) : Trainer :=
  {| train_conf := tconf;
     model_conf := mconf;
     bs := Conf.batch_size tconf;
     image_shape :=
       map (fun x => x * Conf.g_n_scales mconf)
           (Conf.base_image_shape mconf);
     data_iter := di;
     comm := comm;
     fix_global_epoch := Py.max (Conf.fix_global_epoch tconf) 0;
     use_encoder := false;
     load_path := Conf.load_path tconf;
     face_morph := face_morph |}.

(** lines 85-90 *)
Definition load_step (self : Trainer) : M unit :=
  if truthy (load_path self) then
    match load_path self with
    | Some path =>
        if negb (os_path_exists path)
        then emit (LoggerWarn (warn_message path))
        else load_parameters path
    | None => ret tt
    end
  else ret tt.

(** lines 93-97 *)
Definition setup_solvers : M unit :=
  new_Adam g_solver ;;
  emit (SetParameters g_solver "generator/local" true false) ;;
  new_Adam d_solver ;;
  emit (SetParameters d_solver "discriminator" true false).

(** lines 110-122 *)
Definition epoch_begin (self : Trainer) (lr_schduler : Z -> LR)
           (epoch : Z) : M (list Z) :=
  when (epoch =? fix_global_epoch self)
       (emit (SetParameters g_solver "generator" false true)) ;;
  emit (SchedulerCall epoch) ;;
  let lr := lr_schduler epoch in
  set_learning_rate g_solver lr ;;
  set_learning_rate d_solver lr ;;
  let progress_iterator :=
    range (floordiv (floordiv (_size (data_iter self)) (bs self))
                    (n_procs (comm self))) in
  emit ReporterStart ;;
  ret progress_iterator.

(** lines 125-160: the body of the inner loop *)
Definition iteration (self : Trainer) (i : Z) : M unit :=
  emit DataNext ;;
  emit FakeForward ;;
  (* update discriminator *)
  emit (ZeroGrad d_solver) ;;
  emit (Forward d_loss) ;;
  emit (Backward d_loss) ;;
  when (1 <? Z.pos (n_procs (comm self)))
       (emit (AllReduce d_solver false false)) ;;
  update d_solver ;;
  (* update generator *)
  emit UnlinkedFakeGradZero ;;
  emit (ZeroGrad g_solver) ;;
  emit (Forward g_loss) ;;
  emit (Backward g_loss) ;;
  emit FakeBackward ;;
  when (1 <? Z.pos (n_procs (comm self)))
       (emit (AllReduce g_solver false false)) ;;
  update g_solver ;;
  emit ReporterCall.

Definition checkpoint_name (epoch : Z) : string :=
  ("param_" ++ format_03d epoch ++ ".h5")%string.

(** lines 163-179 *)
Definition epoch_end (self : Trainer) (epoch : Z) : M unit :=
  emit (ReporterStep epoch) ;;
  when ((epoch mod 5 =? 0) && (rank (comm self) =? 0))
       (emit (SaveParameters
                (os_path_join (Conf.save_path (train_conf self))
                              (checkpoint_name epoch)))).

(** lines 109-179: one pass of the epoch loop *)
Definition run_epoch (self : Trainer) (lr_schduler : Z -> LR)
           (epoch : Z) : M unit :=
  progress_iterator <- epoch_begin self lr_schduler epoch ;;
  for_each progress_iterator (iteration self) ;;
  epoch_end self epoch.

(** lines 181-183 *)
Definition final_save (self : Trainer) : M unit :=
  when (rank (comm self) =? 0)
       (emit (SaveParameters
                (os_path_join (Conf.save_path (train_conf self))
                              "param_final.h5"))).

(** lines 93-183: everything after the loading of parameters *)
Definition training (self : Trainer) : M unit :=
  setup_solvers ;;
  let lr_schduler :=
    LinearDecayScheduler (Conf.base_lr (train_conf self)) lr_zero
                         (Conf.lr_decay_starts (train_conf self))
                         (Conf.max_epochs (train_conf self)) in
  for_each (range (Conf.max_epochs (train_conf self)))
           (run_epoch self lr_schduler) ;;
  final_save self.

(** lines 43-82 *)
Definition declare_graph (self : Trainer) : M unit :=
  modify (fun w =>
    {| params := define_graph self (params w);
       g_lr := g_lr w; d_lr := d_lr w |}).

Definition train (self : Trainer) : M unit :=
  declare_graph self ;;
  load_step self ;;
  training self.

(** Inner-loop passes per epoch, and in a whole run. *)
Definition iterations_per_epoch (self : Trainer) : Z :=
  floordiv (floordiv (_size (data_iter self)) (bs self)) (n_procs (comm self)).

Definition total_iterations (self : Trainer) : nat :=
  (Z.to_nat (Conf.max_epochs (train_conf self))
   * Z.to_nat (iterations_per_epoch self))%nat.

Definition scheduler (self : Trainer) : Z -> LR :=
  LinearDecayScheduler (Conf.base_lr (train_conf self)) lr_zero
                       (Conf.lr_decay_starts (train_conf self))
                       (Conf.max_epochs (train_conf self)).

Definition plan (self : Trainer) : Plan :=
  {| plan_load_path := load_path self;
     plan_multi := 1 <? Z.pos (n_procs (comm self));
     plan_rank := rank (comm self);
     plan_fix_global_epoch := fix_global_epoch self;
     plan_scheduler := scheduler self;
     plan_epochs := Conf.max_epochs (train_conf self);
     plan_iterations := iterations_per_epoch self;
     plan_period := 5;
     plan_save_path := Conf.save_path (train_conf self);
     plan_report_start := fun _ => ReporterStart;
     plan_report_end := ReporterStep |}.

End Trainer.

End Distillation.


(** ** A small concrete framework, to run the trainers on *)

Module Demo.

(** Learning rates are integers, the parameter store is the list of files
    loaded into it, and one checkpoint file exists. *)
Definition framework : Framework :=
  {| LR := Z;
     lr_zero := 0;
     Params := list string;
     nn_load_parameters := fun path ps => ps ++ [path];
     solver_update := fun _ _ ps => ps;
     os_path_exists := fun path => String.eqb path "out/param_final.h5";
     Rng := Z;
     RandomState := fun seed => seed |}.

Definition world : @World framework :=
  @Build_World framework [] None None.

Definition pix_imports : @Pix2pixHD.Imports framework :=
  @Pix2pixHD.Build_Imports framework
    (list string)
    (fun batch_size data_list _ _ _ =>
       {| _size := Z.of_nat (List.length data_list);
          _batch_size := Z.to_pos batch_size |})
    (fun di _ n _ =>
       {| _size := _size di / Z.pos n; _batch_size := _batch_size di |})
    (fun _ ps => ps)
    (fun (lr : Z) (max_epoch epoch : Z) => lr - epoch).

(** Two workers, rank 0, eleven epochs of two passes, a checkpoint path
    that does not exist. *)
Definition pix_trainer : @Pix2pixHD.Trainer framework :=
  @Pix2pixHD.__init__ framework pix_imports
    2 [4; 4] ["a"; "b"; "c"; "d"; "e"; "f"; "g"; "h"] 11 (100 : Z)
    {| n_procs := 2; rank := 0 |} (-1) 2 1 3 false
    (Some "out/missing.h5") "out" None true.

(** The same on a single worker, with a checkpoint path that exists. *)
Definition pix_trainer_resumed : @Pix2pixHD.Trainer framework :=
  @Pix2pixHD.__init__ framework pix_imports
    2 [4; 4] ["a"; "b"; "c"; "d"] 2 (100 : Z)
    {| n_procs := 1; rank := 0 |} 5 2 1 3 false
    (Some "out/param_final.h5") "out" None true.

Definition dis_imports : @Distillation.Imports framework :=
  @Distillation.Build_Imports framework
    (fun _ ps => ps)
    (fun (base_lr final_lr : Z) (start_iter end_iter epoch : Z) =>
       if epoch <? start_iter then base_lr
       else base_lr - (base_lr - final_lr) * (epoch - start_iter)
                      / (end_iter - start_iter)).

Definition dis_tconf (load_path : option string)
  : @Distillation.Conf.TrainConf framework :=
  @Distillation.Conf.Build_TrainConf framework
    313 2%positive 3 load_path "log/" (100 : Z) 2 6 (10 : Z) (10 : Z).

Definition dis_mconf : Distillation.Conf.ModelConf :=
  {| Distillation.Conf.g_n_scales := 1;
     Distillation.Conf.d_n_scales := 2;
     Distillation.Conf.base_image_shape := [8; 8];
     Distillation.Conf.lg_channels := 32;
     Distillation.Conf.gg_channels := 64;
     Distillation.Conf.lg_num_residual_loop := 3;
     Distillation.Conf.gg_num_residual_loop := 9 |}.

(** Two workers, rank 0, six epochs of two passes. *)
Definition dis_trainer : @Distillation.Trainer framework :=
  Distillation.__init__ (dis_tconf (Some "out/missing.h5")) dis_mconf
    {| n_procs := 2; rank := 0 |}
    {| _size := 8; _batch_size := 2 |} false.

Definition dis_trainer_resumed : @Distillation.Trainer framework :=
  Distillation.__init__ (dis_tconf (Some "out/param_final.h5")) dis_mconf
    {| n_procs := 1; rank := 0 |}
    {| _size := 4; _batch_size := 2 |} true.

End Demo.


(** ** speech-synthesis/TTS/FastSpeech2/model/decoder.py *)

Module FastSpeech2.

(** The hyper-parameters the decoder reads.  The dropout rate is kept as a
    decimal literal, [mantissa * 10 ^ exponent]. *)
Record Hparams : Type := {
  batch_size : Z;
  max_len_mel : Z;
  decoder_hidden : Z;
  decoder_layer : Z;
  decoder_head : Z;
  conv_filter_size : Z;
  conv_kernel_size : list Z;
  decoder_dropout : Z * Z
}.

(** An [FFTBlock] object: its constructor arguments, and the pass of the
    constructing loop that made it, which tells the objects apart. *)
Record FFTBlock : Type := {
  block_index : Z;
  n_head : Z;
  n_hidden : Z;
  block_conv_filter_size : Z;
  block_conv_kernel_size : list Z;
  dropout : Z * Z
}.

(** nnabla variables are nodes of a computation graph: the decoder does
    not compute numbers, it builds the graph. *)
#[warnings="-register-all"]
Inductive variable : Type :=
| Leaf (name : string)
| Add2 (a b : variable)
| Tile (x : variable) (reps : list Z)
| Transpose (x : variable) (axes : list Z)
| Apply (block : FFTBlock) (x : variable) (mask : option variable)
| MaskedFill (x mask : variable).

(** A [Decoder] object: the two attributes set by name and the attributes
    set through [setattr]. *)
Record Decoder : Type := {
  hp : Hparams;
  pos_enc : variable;
  attributes : list (string * FFTBlock)
}.

(** [setattr(self, name, block)] *)
Fixpoint assign (d : list (string * FFTBlock)) (name : string)
         (block : FFTBlock) : list (string * FFTBlock) :=
  match d with
  | [] => [(name, block)]
  | (k, v) :: rest =>
      if String.eqb k name then (k, block) :: rest
      else (k, v) :: assign rest name block
  end.

Definition setattr (self : Decoder) (name : string) (block : FFTBlock)
  : Decoder :=
  {| hp := hp self; pos_enc := pos_enc self;
     attributes := assign (attributes self) name block |}.

Fixpoint lookup (d : list (string * FFTBlock)) (name : string)
  : option FFTBlock :=
  match d with
  | [] => None
  | (k, v) :: rest => if String.eqb k name then Some v else lookup rest name
  end.

(** [getattr(self, name)] *)
Definition getattr (self : Decoder) (name : string) : result FFTBlock :=
  match lookup (attributes self) name with
  | Some b => Ok b
  | None => Raise (AttributeError name)
  end.

(** [f"fft_block_{i}"] *)
Definition fft_block_name (i : Z) : string := ("fft_block_" ++ str i)%string.

Definition new_FFTBlock (hp : Hparams) (i : Z) : FFTBlock :=
  {| block_index := i;
     n_head := decoder_head hp;
     n_hidden := decoder_hidden hp;
     block_conv_filter_size := conv_filter_size hp;
     block_conv_kernel_size := conv_kernel_size hp;
     dropout := decoder_dropout hp |}.

(** [Decoder.__init__]; the first argument stands for
    [get_positional_encoding] of model/transformer/ops.py. *)
Definition __init__ (get_positional_encoding : Z -> Z -> variable)
           (hp : Hparams) : Decoder :=
  let self :=
    {| hp := hp;
       pos_enc := get_positional_encoding (max_len_mel hp) (decoder_hidden hp);
       attributes := [] |} in
  fold_left (fun self i => setattr self (fft_block_name i) (new_FFTBlock hp i))
            (range (decoder_layer hp)) self.

(** [for i in l: x = body(i, x)] where the body may raise. *)
Fixpoint for_fold {A S} (l : list A) (body : A -> S -> result S) (s : S)
  : result S :=
  match l with
  | [] => Ok s
  | i :: rest => s' <- body i s ;; for_fold rest body s'
  end.

(** [Decoder.call] *)
Definition call (self : Decoder) (x : variable) (mask : option variable)
  : result variable :=
  let hp := hp self in
  let x := Add2 x (Tile (pos_enc self) [batch_size hp; 1; 1]) in
  let mask :=
    match mask with
    | Some m => Some (Transpose m [0; 2; 1])
    | None => None
    end in
  x <- for_fold (range (decoder_layer hp))
                (fun i x =>
                   block <- getattr self (fft_block_name i) ;;
                   ret (Apply block x mask))
                x ;;
  let x :=
    match mask with
    | Some m => MaskedFill x (Transpose m [0; 2; 1])
    | None => x
    end in
  ret x.

(** Number of [F.transpose] and of [masked_fill] nodes in a graph. *)
Fixpoint n_transpose (v : variable) : nat :=
  match v with
  | Leaf _ => 0
  | Add2 a b => n_transpose a + n_transpose b
  | Tile x _ => n_transpose x
  | Transpose x _ => S (n_transpose x)
  | Apply _ x mask =>
      n_transpose x + match mask with Some m => n_transpose m | None => 0 end
  | MaskedFill x m => n_transpose x + n_transpose m
  end.

Fixpoint n_masked_fill (v : variable) : nat :=
  match v with
  | Leaf _ => 0
  | Add2 a b => n_masked_fill a + n_masked_fill b
  | Tile x _ => n_masked_fill x
  | Transpose x _ => n_masked_fill x
  | Apply _ x mask =>
      n_masked_fill x
      + match mask with Some m => n_masked_fill m | None => 0 end
  | MaskedFill x m => S (n_masked_fill x + n_masked_fill m)
  end.

(** The blocks applied on the way from the innermost operand to the
    result, first applied first. *)
Fixpoint applied_blocks (v : variable) : list Z :=
  match v with
  | Apply b x _ => applied_blocks x ++ [block_index b]
  | MaskedFill x _ => applied_blocks x
  | _ => []
  end.

(** [x] passed through the blocks numbered [l], in that order, without a
    mask. *)
Definition through_blocks (hp : Hparams) (l : list Z) (x : variable)
  : variable :=
  fold_left (fun acc i => Apply (new_FFTBlock hp i) acc None) l x.

(** A shape assignment for the witness of the shape property: a leaf has
    the shape given for its name, element-wise operations need equal
    shapes, tiling multiplies, transposition permutes, blocks and
    [masked_fill] keep the shape of their first operand. *)
Fixpoint shape_with (leaf : string -> list Z) (v : variable) : list Z :=
  match v with
  | Leaf n => leaf n
  | Add2 a b => map (fun p => Z.max (fst p) (snd p))
                    (combine (shape_with leaf a) (shape_with leaf b))
  | Tile x reps => map (fun p => fst p * snd p)
                       (combine (shape_with leaf x) reps)
  | Transpose x axes =>
      map (fun a => nth (Z.to_nat a) (shape_with leaf x) 0) axes
  | Apply _ x _ => shape_with leaf x
  | MaskedFill x _ => shape_with leaf x
  end.

(** A small configuration to run the decoder on: two layers, a batch of
    two sequences of three frames with four channels. *)
Definition demo_hp : Hparams :=
  {| batch_size := 2;
     max_len_mel := 3;
     decoder_hidden := 4;
     decoder_layer := 2;
     decoder_head := 2;
     conv_filter_size := 8;
     conv_kernel_size := [9; 1];
     decoder_dropout := (2, -1) |}.

Definition demo_positional_encoding (position dim : Z) : variable :=
  Leaf "pos_enc".

Definition demo_leaf (name : string) : list Z :=
  if String.eqb name "pos_enc" then [1; 3; 4]
  else if String.eqb name "mask" then [2; 3; 1]
  else [2; 3; 4].

End FastSpeech2.


(** ** Further observations

    Definitions read by the properties that go beyond the claims. *)

(** Whether the character [c] occurs in [s]. *)
Fixpoint occurs (c : ascii) (s : string) : bool :=
  match s with
  | EmptyString => false
  | String x rest => Ascii.eqb x c || occurs c rest
  end.

(** The entries that [get_params_startswith(str, ignore_in)] keeps. *)
Definition selected {V} (str : string) (ignore_in : bool)
           (kv : string * V) : bool :=
  startswith (fst kv) str && (negb ignore_in || GetParams.keeps (fst kv)).

(** The keys of a dictionary. *)
Definition keys {V} (d : list (string * V)) : list string := map fst d.


Section MoreObservations.
Context {F : Framework}.



(** The files a trace writes, in order. *)
Definition saved_paths (t : list Event) : list string :=
  flat_map (fun e => match e with
                     | SaveParameters path => [path]
                     | _ => []
                     end) t.



End MoreObservations.

(** Further runs of the small framework: no epoch at all, no path to load. *)
Module Cases.

Definition pix_untrained : @Pix2pixHD.Trainer Demo.framework :=
  @Pix2pixHD.__init__ Demo.framework Demo.pix_imports
    2 [4; 4] ["a"; "b"; "c"; "d"] 0 (100 : Z)
    {| n_procs := 1; rank := 0 |} 0 2 1 3 false
    (Some "") "out" None true.

(** Three samples in batches of two, on one worker. *)
Definition pix_small : @Pix2pixHD.Trainer Demo.framework :=
  @Pix2pixHD.__init__ Demo.framework Demo.pix_imports
    2 [4; 4] ["a"; "b"; "c"] 3 (100 : Z)
    {| n_procs := 1; rank := 0 |} 1 2 1 3 false
    None "out/" None true.

Definition dis_tconf_untrained : @Distillation.Conf.TrainConf Demo.framework :=
  @Distillation.Conf.Build_TrainConf Demo.framework
    313 2%positive (-1) None "log" (100 : Z) 0 0 (10 : Z) (10 : Z).

Definition dis_untrained : @Distillation.Trainer Demo.framework :=
  Distillation.__init__ dis_tconf_untrained Demo.dis_mconf
    {| n_procs := 2; rank := 0 |}
    {| _size := 9; _batch_size := 2 |} false.

(** Nine samples in batches of two on two workers. *)
Definition dis_small : @Distillation.Trainer Demo.framework :=
  Distillation.__init__ (Demo.dis_tconf None) Demo.dis_mconf
    {| n_procs := 2; rank := 1 |}
    {| _size := 9; _batch_size := 2 |} false.

End Cases.


(** The number written by ['{:03d}'.format], read back from its digits. *)
Definition read_digits (digits : string) : option N :=
  option_map N.of_uint (NilEmpty.uint_of_string digits).


(** A decoder whose hyper-parameters ask for two layers while only the
    block of the first one was ever set. *)
Definition decoder_short_of_a_block : FastSpeech2.Decoder :=
  {| FastSpeech2.hp := FastSpeech2.demo_hp;
     FastSpeech2.pos_enc := FastSpeech2.Leaf "pos_enc";
     FastSpeech2.attributes :=
       [(FastSpeech2.fft_block_name 0,
         FastSpeech2.new_FFTBlock FastSpeech2.demo_hp 0)] |}.

(** Hyper-parameters that ask for no layer. *)
Definition hp_without_layers : FastSpeech2.Hparams :=
  {| FastSpeech2.batch_size := 2;
     FastSpeech2.max_len_mel := 3;
     FastSpeech2.decoder_hidden := 4;
     FastSpeech2.decoder_layer := 0;
     FastSpeech2.decoder_head := 2;
     FastSpeech2.conv_filter_size := 8;
     FastSpeech2.conv_kernel_size := [9; 1];
     FastSpeech2.decoder_dropout := (2, -1) |}.


Section RankObservations.
Context {F : Framework}.



End RankObservations.






(** * Properties *)

(** ** WaveGlow hyper-parameters *)

(** C7: the WaveGlow configuration is one [HParams] object whose
    integer-valued fields are exactly [sr], [n_fft], [n_mels], [hop_length],
    [win_length], [n_flows], [n_groups], [n_early_every], [n_early_size],
    [segment_length], [wn_n_layers], [wn_kernel_size], [wn_n_channels],
    [seed], [batch_size], [epoch], [print_frequency] and
    [epochs_per_checkpoint], with the values 22050, 1024, 80, 256, 1024, 12,
    8, 4, 2, 8000, 8, 3, 256, 123456, 4, 1001, 20 and 50; reading each of
    them by name gives that value. *)
Theorem waveglow_hparams_integer_fields :
  let expected :=
    [ ("sr", 22050); ("n_fft", 1024); ("n_mels", 80); ("hop_length", 256);
      ("win_length", 1024); ("n_flows", 12); ("n_groups", 8);
      ("n_early_every", 4); ("n_early_size", 2); ("segment_length", 8000);
      ("wn_n_layers", 8); ("wn_kernel_size", 3); ("wn_n_channels", 256);
      ("seed", 123456); ("batch_size", 4); ("epoch", 1001);
      ("print_frequency", 20); ("epochs_per_checkpoint", 50) ] in
  WaveGlow.int_fields WaveGlow.hparams
    = map (fun kv => (fst kv, WaveGlow.VInt (snd kv))) expected
  /\ Forall (fun kv => WaveGlow.getattr WaveGlow.hparams (fst kv)
                       = Some (WaveGlow.VInt (snd kv))) expected.
Proof.
  cbv zeta. split.
  - reflexivity.
  - repeat constructor.
Qed.

(** ** [fix_global_epoch] *)

Lemma py_max_0 (z : Z) :
  0 <= Py.max z 0 /\ Py.max z 0 = (if 0 <=? z then z else 0).
Proof.
  unfold Py.max.
  destruct (z <? 0) eqn:Hlt; destruct (0 <=? z) eqn:Hle; lia.
Qed.

(** C9: after construction of either trainer the stored [fix_global_epoch]
    is non-negative; it is the argument when the argument is non-negative
    and 0 otherwise. *)
Theorem fix_global_epoch_nonnegative :
  forall (F : Framework),
    (forall (I : Pix2pixHD.Imports) batch_size base_image_shape data_list
            max_epoch learning_rate comm fix_global_epoch d_n_scales
            g_n_scales n_label_ids use_encoder load_path save_path rng
            is_data_flip,
        let self :=
          Pix2pixHD.__init__ batch_size base_image_shape data_list max_epoch
            learning_rate comm fix_global_epoch d_n_scales g_n_scales
            n_label_ids use_encoder load_path save_path rng is_data_flip in
        0 <= Pix2pixHD.fix_global_epoch self
        /\ Pix2pixHD.fix_global_epoch self
           = (if 0 <=? fix_global_epoch then fix_global_epoch else 0))
    /\ (forall tconf mconf comm di face_morph,
           let self := Distillation.__init__ tconf mconf comm di face_morph in
           0 <= Distillation.fix_global_epoch self
           /\ Distillation.fix_global_epoch self
              = (if 0 <=? Distillation.Conf.fix_global_epoch tconf
                 then Distillation.Conf.fix_global_epoch tconf else 0)).
Proof.
  intros F. split; intros; subst self; cbn; apply py_max_0.
Qed.

(** ** [get_params_startswith] *)

Section GetParamsFacts.
Import GetParams.
Context {V : Type}.
Implicit Types (ps : list (string * V)) (k p : string).

Lemma getitem_minus_2 {A} (l : list A) :
  getitem l (-2) = match rev l with
                   | _ :: c :: _ => Ok c
                   | _ => Raise IndexError
                   end.
Proof.
  rewrite <- (rev_involutive l) at 1.
  destruct (rev l) as [|a [|c r]]; try reflexivity.
  unfold getitem. cbn [rev]. rewrite !length_app, length_rev. cbn [List.length].
  replace (-2 <? 0) with true by reflexivity.
  replace (-2 + Z.of_nat (List.length r + 1 + 1)) with (Z.of_nat (List.length r)) by lia.
  replace (0 <=? Z.of_nat (List.length r)) with true
    by (symmetry; apply Z.leb_le; lia).
  replace (Z.of_nat (List.length r) <? Z.of_nat (List.length r + 1 + 1)) with true
    by (symmetry; apply Z.ltb_lt; lia).
  cbn [andb].
  rewrite Nat2Z.id, <- app_assoc, nth_error_app2 by (rewrite length_rev; lia).
  rewrite length_rev, Nat.sub_diag. reflexivity.
Qed.

Lemma not_instance_norm_spec k :
  not_instance_norm k
  = match second_to_last k with
    | Some c => Ok (negb (String.eqb c "instance_normalization"))
    | None => Raise IndexError
    end.
Proof.
  unfold not_instance_norm, second_to_last. rewrite getitem_minus_2.
  destruct (rev (split "/" k)) as [|a [|c r]]; reflexivity.
Qed.

Lemma dict_comp_scoped ps :
  Forall (fun kv => has_scope (fst kv)) ps ->
  dict_comp (fun k (_ : V) => not_instance_norm k) ps
  = Ok (filter (fun kv => keeps (fst kv)) ps).
Proof.
  induction 1 as [|[k v] ps Hk _ IH]; [reflexivity|].
  cbn [dict_comp filter fst]. rewrite not_instance_norm_spec, IH.
  unfold keeps, has_scope in *. cbn [fst] in Hk.
  destruct (second_to_last k) as [c|]; [|congruence].
  cbn. destruct (negb _); reflexivity.
Qed.

Lemma dict_comp_unscoped ps :
  Exists (fun kv => ~ has_scope (fst kv)) ps ->
  dict_comp (fun k (_ : V) => not_instance_norm k) ps = Raise IndexError.
Proof.
  induction 1 as [[k v] ps Hk|[k v] ps _ IH].
  - cbn [dict_comp]. rewrite not_instance_norm_spec.
    unfold has_scope in Hk. cbn [fst] in Hk.
    destruct (second_to_last k); [exfalso; apply Hk; discriminate|reflexivity].
  - cbn [dict_comp]. rewrite not_instance_norm_spec, IH.
    destruct (second_to_last k); reflexivity.
Qed.

Lemma has_scope_dec k : {has_scope k} + {~ has_scope k}.
Proof.
  unfold has_scope. destruct (second_to_last k).
  - left. discriminate.
  - right. intros H. apply H. reflexivity.
Qed.

(** Without [ignore_in] the function is a plain filter on the prefix. *)
Lemma get_params_startswith_plain ps p :
  get_params_startswith ps p false
  = Ok (filter (fun kv => startswith (fst kv) p) ps).
Proof. reflexivity. Qed.

(** With [ignore_in], and every key in a scope, it returns the entries
    whose key starts with [p] and whose second-to-last component is not
    [instance_normalization], in the order of the store. *)
Lemma get_params_startswith_scoped ps p :
  Forall (fun kv => has_scope (fst kv)) ps ->
  get_params_startswith ps p true
  = Ok (filter (fun kv => startswith (fst kv) p)
               (filter (fun kv => keeps (fst kv)) ps)).
Proof.
  intros H. unfold get_params_startswith. cbn [bind result_monad].
  rewrite (dict_comp_scoped H). reflexivity.
Qed.

(** With [ignore_in], one key outside every scope makes the call raise,
    whatever the prefix. *)
Lemma get_params_startswith_unscoped ps p :
  Exists (fun kv => ~ has_scope (fst kv)) ps ->
  get_params_startswith ps p true = Raise IndexError.
Proof.
  intros H. unfold get_params_startswith. cbn [bind result_monad].
  rewrite (dict_comp_unscoped H). reflexivity.
Qed.

(** Whenever the call returns, every returned entry is an entry of the
    store whose key starts with [p]. *)
Lemma get_params_startswith_sound ps p b r :
  get_params_startswith ps p b = Ok r ->
  forall kv, In kv r -> In kv ps /\ startswith (fst kv) p = true.
Proof.
  intros H kv Hin.
  destruct b.
  - destruct (Forall_Exists_dec (fun kv : string * V => has_scope (fst kv))
                (fun kv => has_scope_dec (fst kv)) ps) as [Hs|He].
    + rewrite (get_params_startswith_scoped p Hs) in H.
      injection H as <-. apply filter_In in Hin as [Hin Hp].
      apply filter_In in Hin as [Hin _]. auto.
    + rewrite (get_params_startswith_unscoped p He) in H. discriminate.
  - rewrite get_params_startswith_plain in H. injection H as <-.
    apply filter_In in Hin. exact Hin.
Qed.

(** With every key in a scope the returned entries are exactly those of
    the claimed description. *)
Lemma get_params_startswith_scoped_entries ps p r :
  Forall (fun kv => has_scope (fst kv)) ps ->
  get_params_startswith ps p true = Ok r ->
  forall k v,
    In (k, v) r
    <-> In (k, v) ps /\ startswith k p = true
        /\ second_to_last k <> Some "instance_normalization"%string.
Proof.
  intros Hs H k v. rewrite (get_params_startswith_scoped p Hs) in H.
  injection H as <-. rewrite !filter_In. cbn [fst]. unfold keeps.
  rewrite Forall_forall in Hs.
  split.
  - intros [[Hin Hk] Hp]. repeat split; [exact Hin|exact Hp|].
    destruct (second_to_last k) as [c|]; [|discriminate].
    intros E. injection E as ->. discriminate Hk.
  - intros (Hin & Hp & Hk). repeat split; [exact Hin| |exact Hp].
    specialize (Hs _ Hin). unfold has_scope in Hs. cbn [fst] in Hs.
    destruct (second_to_last k) as [c|]; [|contradiction].
    destruct (String.eqb_spec c "instance_normalization") as [->|Hne];
      [contradiction|reflexivity].
Qed.

Lemma get_params_startswith_examples :
  let store :=
    [ ("generator/local/conv/W", 1);
      ("generator/local/instance_normalization/gamma", 2);
      ("generator/global/conv/W", 3);
      ("discriminator/d_0/conv/b", 4) ]%string in
  get_params_startswith store "generator" true
  = Ok [("generator/local/conv/W", 1); ("generator/global/conv/W", 3)]%string
  /\ get_params_startswith store "generator/local" false
     = Ok [("generator/local/conv/W", 1);
           ("generator/local/instance_normalization/gamma", 2)]%string
  /\ get_params_startswith (store ++ [("W", 5)]) "discriminator" true
     = Raise IndexError.
Proof. repeat split. Qed.

End GetParamsFacts.

(** C8, at a store that holds one parameter registered outside every
    scope: the key ["W"] has a single component, [k.split("/")[-2]] raises
    [IndexError], and [get_params_startswith("W")] raises instead of
    returning the entry, although the key starts with the prefix and has no
    [instance_normalization] component. *)
Theorem get_params_startswith_top_level_key_raises :
  forall (V : Type) (v : V),
    GetParams.get_params_startswith [("W", v)] "W" true = Raise IndexError
    /\ GetParams.get_params_startswith [("W", v)] "W" false = Ok [("W", v)].
Proof.
  intros V v. split; reflexivity.
Qed.

(** ** Traces of monadic programs *)

Section TraceFacts.
Context {F : Framework}.

Lemma trace_bind {A B} (m : M A) (k : A -> M B) (w : World) :
  trace (bind m k) w
  = trace m w ++ trace (k (fst (fst (m w)))) (world_after m w).
Proof.
  unfold trace, world_after. cbn. unfold M_bind.
  destruct (m w) as [[a w1] t1]. cbn.
  destruct (k a w1) as [[b w2] t2]. reflexivity.
Qed.


(** A loop whose body performs events that do not depend on the world
    performs them once per element, in order. *)
Lemma trace_for_each {A} (body : A -> M unit) (T : A -> list Event) l :
  (forall x w, trace (body x) w = T x) ->
  forall w, trace (for_each l body) w = flat_map T l.
Proof.
  intros HT. induction l as [|x l IH]; intros w; [reflexivity|].
  cbn [for_each flat_map]. rewrite trace_bind, HT, IH. reflexivity.
Qed.


Lemma filter_flat_map {A B} (f : B -> bool) (g : A -> list B) l :
  filter f (flat_map g l) = flat_map (fun x => filter f (g x)) l.
Proof.
  induction l as [|x l IH]; [reflexivity|].
  cbn [flat_map]. rewrite filter_app, IH. reflexivity.
Qed.


Lemma flat_map_nil {A B} (g : A -> list B) l :
  (forall x, g x = []) -> flat_map g l = [].
Proof.
  intros H. induction l as [|x l IH]; [reflexivity|].
  cbn [flat_map]. rewrite H, IH. reflexivity.
Qed.


Lemma length_range (n : Z) : List.length (range n) = Z.to_nat n.
Proof. unfold range. rewrite length_map, length_seq. reflexivity. Qed.

Lemma in_range (n e : Z) : In e (range n) <-> 0 <= e < n.
Proof.
  unfold range. rewrite in_map_iff. split.
  - intros [k [<- Hk]]. apply in_seq in Hk. lia.
  - intros He. exists (Z.to_nat e). split; [lia|]. apply in_seq. lia.
Qed.

(** *** Solver steps on a plan *)



Lemma is_report_not (e : Event) :
  is_report e = true ->
  is_solver_step e = false /\ is_update e = false /\ is_all_reduce e = false
  /\ is_save e = false /\ is_lr_event e = false /\ is_load_or_warn e = false.
Proof. destruct e; cbn; intros H; try discriminate H; repeat split. Qed.








End TraceFacts.

(** ** The traces of the two trainers *)

Section Pix2pixHDTrace.
Context {F : Framework} {I : Pix2pixHD.Imports}.
Implicit Types (self : Pix2pixHD.Trainer) (w : World).

Lemma pix_well_formed self : well_formed (Pix2pixHD.plan self).
Proof. intros e. split; reflexivity. Qed.

Lemma pix_trace_iteration self i w :
  trace (Pix2pixHD.iteration self i) w
  = iteration_events (1 <? Z.pos (n_procs (Pix2pixHD.comm self))).
Proof.
  unfold Pix2pixHD.iteration.
  destruct (1 <? Z.pos (n_procs (Pix2pixHD.comm self))); reflexivity.
Qed.


Lemma pix_epoch_begin self sched e w :
  fst (fst (Pix2pixHD.epoch_begin self sched e w))
  = range (Pix2pixHD.iterations_per_epoch self)
  /\ trace (Pix2pixHD.epoch_begin self sched e) w
     = (if e =? Pix2pixHD.fix_global_epoch self
        then [SetParameters g_solver "generator" false true] else [])
       ++ [SchedulerCall e; SetLearningRate g_solver (sched e);
           SetLearningRate d_solver (sched e); ReporterEpochStart e]
  /\ world_after (Pix2pixHD.epoch_begin self sched e) w
     = {| params := params w; g_lr := Some (sched e); d_lr := Some (sched e) |}.
Proof.
  unfold Pix2pixHD.epoch_begin.
  destruct (e =? Pix2pixHD.fix_global_epoch self); repeat split.
Qed.

Lemma pix_trace_epoch_end self e w :
  trace (Pix2pixHD.epoch_end self e) w
  = ReporterEpochEnd e :: checkpoint_events (Pix2pixHD.plan self) e.
Proof.
  unfold Pix2pixHD.epoch_end, Pix2pixHD.checkpoint_name, checkpoint_events.
  cbn [Pix2pixHD.plan plan_period plan_rank plan_save_path].
  destruct ((e mod 10 =? 0) && (rank (Pix2pixHD.comm self) =? 0));
    reflexivity.
Qed.

Lemma pix_trace_epoch self e w :
  trace (Pix2pixHD.run_epoch self (plan_scheduler (Pix2pixHD.plan self)) e) w
  = epoch_events (Pix2pixHD.plan self) e.
Proof.
  unfold Pix2pixHD.run_epoch.
  destruct (pix_epoch_begin self (plan_scheduler (Pix2pixHD.plan self)) e w)
    as (Hv & Ht & _).
  rewrite trace_bind, Hv, Ht, trace_bind.
  rewrite (trace_for_each _ _ _ (pix_trace_iteration self)).
  rewrite pix_trace_epoch_end.
  unfold epoch_events, lr_events.
  rewrite <- !app_assoc. reflexivity.
Qed.

Lemma pix_trace_load_step self w :
  trace (Pix2pixHD.load_step self) w = load_events (Pix2pixHD.load_path self).
Proof.
  unfold Pix2pixHD.load_step, load_events, truthy.
  destruct (Pix2pixHD.load_path self) as [path|]; [|reflexivity].
  destruct (String.eqb path ""); [reflexivity|]. cbn [negb].
  destruct (os_path_exists path); reflexivity.
Qed.

Lemma pix_trace_training self w :
  trace (Pix2pixHD.training self) w
  = setup_events
    ++ flat_map (epoch_events (Pix2pixHD.plan self))
                (range (Pix2pixHD.max_epoch self))
    ++ final_events (Pix2pixHD.plan self).
Proof.
  unfold Pix2pixHD.training.
  rewrite trace_bind. f_equal. cbv zeta. rewrite trace_bind.
  rewrite (trace_for_each _ _ _ (pix_trace_epoch self)). f_equal.
  unfold Pix2pixHD.final_save, final_events. cbn [Pix2pixHD.plan plan_rank
    plan_save_path].
  destruct (rank (Pix2pixHD.comm self) =? 0); reflexivity.
Qed.

(** The world in which the steps after graph construction run. *)
Lemma pix_trace_train self w :
  trace (Pix2pixHD.train self) w = plan_events (Pix2pixHD.plan self).
Proof.
  unfold Pix2pixHD.train, plan_events.
  rewrite trace_bind. change (trace (Pix2pixHD.declare_graph self) w) with (@nil Event).
  cbn [app].
  rewrite trace_bind, pix_trace_load_step, pix_trace_training. reflexivity.
Qed.

End Pix2pixHDTrace.

Section DistillationTrace.
Context {F : Framework} {I : Distillation.Imports}.
Implicit Types (self : Distillation.Trainer) (w : World).

Lemma dis_well_formed self : well_formed (Distillation.plan self).
Proof. intros e. split; reflexivity. Qed.

Lemma dis_trace_iteration self i w :
  trace (Distillation.iteration self i) w
  = iteration_events (1 <? Z.pos (n_procs (Distillation.comm self))).
Proof.
  unfold Distillation.iteration.
  destruct (1 <? Z.pos (n_procs (Distillation.comm self))); reflexivity.
Qed.


Lemma dis_epoch_begin self sched e w :
  fst (fst (Distillation.epoch_begin self sched e w))
  = range (Distillation.iterations_per_epoch self)
  /\ trace (Distillation.epoch_begin self sched e) w
     = (if e =? Distillation.fix_global_epoch self
        then [SetParameters g_solver "generator" false true] else [])
       ++ [SchedulerCall e; SetLearningRate g_solver (sched e);
           SetLearningRate d_solver (sched e); ReporterStart]
  /\ world_after (Distillation.epoch_begin self sched e) w
     = {| params := params w; g_lr := Some (sched e); d_lr := Some (sched e) |}.
Proof.
  unfold Distillation.epoch_begin.
  destruct (e =? Distillation.fix_global_epoch self); repeat split.
Qed.

Lemma dis_trace_epoch_end self e w :
  trace (Distillation.epoch_end self e) w
  = ReporterStep e :: checkpoint_events (Distillation.plan self) e.
Proof.
  unfold Distillation.epoch_end, Distillation.checkpoint_name, checkpoint_events.
  cbn [Distillation.plan plan_period plan_rank plan_save_path].
  destruct ((e mod 5 =? 0) && (rank (Distillation.comm self) =? 0));
    reflexivity.
Qed.

Lemma dis_trace_epoch self e w :
  trace (Distillation.run_epoch self (plan_scheduler (Distillation.plan self)) e) w
  = epoch_events (Distillation.plan self) e.
Proof.
  unfold Distillation.run_epoch.
  destruct (dis_epoch_begin self (plan_scheduler (Distillation.plan self)) e w)
    as (Hv & Ht & _).
  rewrite trace_bind, Hv, Ht, trace_bind.
  rewrite (trace_for_each _ _ _ (dis_trace_iteration self)).
  rewrite dis_trace_epoch_end.
  unfold epoch_events, lr_events.
  rewrite <- !app_assoc. reflexivity.
Qed.

Lemma dis_trace_load_step self w :
  trace (Distillation.load_step self) w = load_events (Distillation.load_path self).
Proof.
  unfold Distillation.load_step, load_events, truthy.
  destruct (Distillation.load_path self) as [path|]; [|reflexivity].
  destruct (String.eqb path ""); [reflexivity|]. cbn [negb].
  destruct (os_path_exists path); reflexivity.
Qed.

Lemma dis_trace_training self w :
  trace (Distillation.training self) w
  = setup_events
    ++ flat_map (epoch_events (Distillation.plan self))
                (range (Distillation.Conf.max_epochs (Distillation.train_conf self)))
    ++ final_events (Distillation.plan self).
Proof.
  unfold Distillation.training.
  rewrite trace_bind. f_equal. cbv zeta. rewrite trace_bind.
  rewrite (trace_for_each _ _ _ (dis_trace_epoch self)). f_equal.
  unfold Distillation.final_save, final_events. cbn [Distillation.plan plan_rank
    plan_save_path].
  destruct (rank (Distillation.comm self) =? 0); reflexivity.
Qed.

(** The world in which the steps after graph construction run. *)
Lemma dis_trace_train self w :
  trace (Distillation.train self) w = plan_events (Distillation.plan self).
Proof.
  unfold Distillation.train, plan_events.
  rewrite trace_bind. change (trace (Distillation.declare_graph self) w) with (@nil Event).
  cbn [app].
  rewrite trace_bind, dis_trace_load_step, dis_trace_training. reflexivity.
Qed.

End DistillationTrace.

(** ** Alternation of the discriminator and generator steps *)


(** ** Gradient synchronisation *)

Section Synchronisation.
Context {F : Framework}.
Implicit Types (t a b : list Event).

Lemma no_all_reduce_single_iteration :
  filter is_all_reduce (iteration_events false) = [].
Proof. reflexivity. Qed.






















End Synchronisation.


(** ** Checkpoints *)

Section Checkpoints.
Context {F : Framework}.

Lemma saves_iteration multi :
  filter is_save (iteration_events multi) = [].
Proof. destruct multi; reflexivity. Qed.

Lemma saves_checkpoint_events (p : Plan) e :
  filter is_save (checkpoint_events p e) = checkpoint_events p e.
Proof.
  unfold checkpoint_events.
  destruct ((e mod plan_period p =? 0) && (plan_rank p =? 0)); reflexivity.
Qed.

Lemma saves_epoch (p : Plan) e :
  well_formed p ->
  filter is_save (epoch_events p e) = checkpoint_events p e.
Proof.
  intros Hwf. destruct (Hwf e) as [Hs He].
  apply is_report_not in Hs as (_ & _ & _ & Hs & _).
  apply is_report_not in He as (_ & _ & _ & He & _).
  unfold epoch_events, lr_events.
  rewrite !filter_app, filter_flat_map, saves_checkpoint_events.
  rewrite (flat_map_nil _ _ (fun _ => saves_iteration (plan_multi p))).
  cbn [filter]. rewrite Hs, He.
  destruct (e =? plan_fix_global_epoch p); reflexivity.
Qed.

Lemma saves_plan (p : Plan) :
  well_formed p ->
  filter is_save (plan_events p)
  = flat_map (checkpoint_events p) (range (plan_epochs p)) ++ final_events p.
Proof.
  intros Hwf. unfold plan_events, load_events, setup_events.
  rewrite !filter_app, filter_flat_map.
  rewrite (flat_map_ext _ _ (fun e => saves_epoch e Hwf)).
  assert (Hfinal : filter is_save (final_events p) = final_events p).
  { unfold final_events. destruct (plan_rank p =? 0); reflexivity. }
  rewrite Hfinal.
  destruct (plan_load_path p) as [path|]; [|reflexivity].
  destruct (String.eqb path ""); [reflexivity|].
  destruct (os_path_exists path); reflexivity.
Qed.

Lemma in_checkpoint_events (p : Plan) e ev :
  In ev (checkpoint_events p e) ->
  ev = SaveParameters
         (os_path_join (plan_save_path p)
                       ("param_" ++ format_03d e ++ ".h5")%string).
Proof.
  unfold checkpoint_events.
  destruct ((e mod plan_period p =? 0) && (plan_rank p =? 0)); cbn;
    intros H; [destruct H as [<-|[]]; reflexivity|destruct H].
Qed.

Lemma in_final_events (p : Plan) ev :
  In ev (final_events p) ->
  ev = SaveParameters (os_path_join (plan_save_path p) "param_final.h5").
Proof.
  unfold final_events. destruct (plan_rank p =? 0); cbn;
    intros H; [destruct H as [<-|[]]; reflexivity|destruct H].
Qed.

(** Every file a plan saves is one of the two kinds of checkpoint. *)
Lemma saved_paths_plan (p : Plan) path :
  well_formed p ->
  In (SaveParameters path) (plan_events p) ->
  path = os_path_join (plan_save_path p) "param_final.h5"
  \/ exists e, In e (range (plan_epochs p))
               /\ path = os_path_join (plan_save_path p)
                           ("param_" ++ format_03d e ++ ".h5")%string.
Proof.
  intros Hwf Hin.
  assert (Hs : In (SaveParameters path) (filter is_save (plan_events p)))
    by (apply filter_In; split; [exact Hin|reflexivity]).
  rewrite (saves_plan Hwf) in Hs. apply in_app_or in Hs as [Hs|Hs].
  - right. apply in_flat_map in Hs as [e [He Hs]]. exists e. split; [exact He|].
    apply in_checkpoint_events in Hs. injection Hs as ->. reflexivity.
  - left. apply in_final_events in Hs. injection Hs as ->. reflexivity.
Qed.

End Checkpoints.

(** *** File names *)

Lemma string_append_assoc (a b c : string) :
  ((a ++ b) ++ c = a ++ (b ++ c))%string.
Proof.
  induction a as [|x a IH]; [reflexivity|]. cbn. rewrite IH. reflexivity.
Qed.

Lemma endswith_append (a b s : string) :
  endswith b s -> endswith (a ++ b)%string s.
Proof.
  intros [u ->]. exists (a ++ u)%string. symmetry. apply string_append_assoc.
Qed.

Lemma os_path_join_endswith (a b s : string) :
  endswith b s -> endswith (os_path_join a b) s.
Proof.
  intros H. unfold os_path_join.
  destruct (startswith b "/"); [exact H|].
  destruct ((String.eqb a "") || ends_with_slash a).
  - apply endswith_append, H.
  - apply endswith_append, endswith_append, H.
Qed.

(** A name that does not start with a slash is appended to the directory,
    with one separator when the directory lacks it. *)
Lemma os_path_join_relative (a b : string) :
  startswith b "/" = false ->
  os_path_join a b
  = (if (String.eqb a "") || ends_with_slash a then a ++ b
     else a ++ "/" ++ b)%string.
Proof. intros H. unfold os_path_join. rewrite H. reflexivity. Qed.

Lemma checkpoint_name_h5 (e : Z) :
  endswith ("param_" ++ format_03d e ++ ".h5")%string ".h5"
  /\ startswith ("param_" ++ format_03d e ++ ".h5")%string "/" = false.
Proof.
  split; [|reflexivity].
  exists ("param_" ++ format_03d e)%string.
  rewrite string_append_assoc. reflexivity.
Qed.

Lemma format_03d_examples :
  map format_03d [0; 5; 10; 95; 100; 1000]
  = ["000"; "005"; "010"; "095"; "100"; "1000"]%string.
Proof. reflexivity. Qed.


(** C5: every file that either [Trainer.train] saves has a name ending in
    [.h5]: it is [os.path.join(save_path, 'param_final.h5')], or
    [os.path.join(save_path, 'param_{:03d}.h5'.format(e))] for an epoch [e]
    of the loop. *)
Theorem checkpoint_files_end_in_h5 :
  forall (F : Framework),
    (forall (I : Pix2pixHD.Imports) (self : Pix2pixHD.Trainer) (w : World)
            (path : string),
        In (SaveParameters path) (trace (Pix2pixHD.train self) w) ->
        endswith path ".h5"
        /\ (path = os_path_join (Pix2pixHD.save_path self) "param_final.h5"
            \/ exists e,
                In e (range (Pix2pixHD.max_epoch self))
                /\ path = os_path_join
                            (Pix2pixHD.save_path self)
                            ("param_" ++ format_03d e ++ ".h5")%string))
    /\ (forall (I : Distillation.Imports) (self : Distillation.Trainer)
               (w : World) (path : string),
           In (SaveParameters path) (trace (Distillation.train self) w) ->
           let save_path := Distillation.Conf.save_path
                              (Distillation.train_conf self) in
           endswith path ".h5"
           /\ (path = os_path_join save_path "param_final.h5"
               \/ exists e,
                   In e (range (Distillation.Conf.max_epochs
                                  (Distillation.train_conf self)))
                   /\ path = os_path_join
                               save_path
                               ("param_" ++ format_03d e ++ ".h5")%string)).
Proof.
  assert (Hfinal : endswith "param_final.h5" ".h5")
    by (exists "param_final"%string; reflexivity).
  intros F. split; intros I self w path Hin; cbv zeta.
  - rewrite pix_trace_train in Hin.
    apply (saved_paths_plan _ (pix_well_formed self)) in Hin.
    split; [|exact Hin].
    destruct Hin as [->|[e [_ ->]]]; apply os_path_join_endswith;
      [exact Hfinal|apply checkpoint_name_h5].
  - rewrite dis_trace_train in Hin.
    apply (saved_paths_plan _ (dis_well_formed self)) in Hin.
    split; [|exact Hin].
    destruct Hin as [->|[e [_ ->]]]; apply os_path_join_endswith;
      [exact Hfinal|apply checkpoint_name_h5].
Qed.

(** On the demonstration runs: the checkpoint of epoch 10 of the pix2pixHD
    run and the final one of the distillation run. *)
Lemma checkpoint_files_end_in_h5_witness :
  endswith "out/param_010.h5" ".h5" /\ endswith "log/param_final.h5" ".h5".
Proof.
  split.
  - refine (proj1 (proj1 (checkpoint_files_end_in_h5 Demo.framework)
                     Demo.pix_imports Demo.pix_trainer Demo.world
                     "out/param_010.h5" _)).
    apply (proj1 (filter_In is_save _ _)). vm_compute. tauto.
  - refine (proj1 (proj2 (checkpoint_files_end_in_h5 Demo.framework)
                     Demo.dis_imports Demo.dis_trainer Demo.world
                     "log/param_final.h5" _)).
    apply (proj1 (filter_In is_save _ _)). vm_compute. tauto.
Defined.

(** ** Loading of parameters *)

Section Loading.
Context {F : Framework}.

Lemma loads_iteration multi :
  filter is_load_or_warn (iteration_events multi) = [].
Proof. destruct multi; reflexivity. Qed.

Lemma loads_epoch (p : Plan) e :
  well_formed p -> filter is_load_or_warn (epoch_events p e) = [].
Proof.
  intros Hwf. destruct (Hwf e) as [Hs He].
  apply is_report_not in Hs as (_ & _ & _ & _ & _ & Hs).
  apply is_report_not in He as (_ & _ & _ & _ & _ & He).
  unfold epoch_events, lr_events, checkpoint_events.
  rewrite !filter_app, filter_flat_map.
  rewrite (flat_map_nil _ _ (fun _ => loads_iteration (plan_multi p))).
  cbn [filter]. rewrite Hs, He.
  destruct (e =? plan_fix_global_epoch p);
    destruct ((e mod plan_period p =? 0) && (plan_rank p =? 0)); reflexivity.
Qed.

Lemma loads_load_events (lp : option string) :
  filter is_load_or_warn (load_events lp) = load_events lp.
Proof.
  unfold load_events. destruct lp as [path|]; [|reflexivity].
  destruct (String.eqb path ""); [reflexivity|].
  destruct (os_path_exists path); reflexivity.
Qed.

(** A run loads or warns in its loading step and nowhere else. *)
Lemma loads_plan (p : Plan) :
  well_formed p ->
  filter is_load_or_warn (plan_events p) = load_events (plan_load_path p).
Proof.
  intros Hwf. unfold plan_events, setup_events, final_events.
  rewrite !filter_app, filter_flat_map, loads_load_events.
  rewrite (flat_map_nil _ _ (fun e => loads_epoch e Hwf)).
  destruct (plan_rank p =? 0); cbn [filter app]; apply app_nil_r.
Qed.

Lemma load_events_missing path :
  path <> ""%string -> os_path_exists path = false ->
  load_events (Some path) = [LoggerWarn (warn_message path)].
Proof.
  intros Hne Hex. unfold load_events. rewrite Hex.
  destruct (String.eqb_spec path ""); [contradiction|reflexivity].
Qed.

Lemma load_events_found path :
  path <> ""%string -> os_path_exists path = true ->
  load_events (Some path) = [LoadParameters path].
Proof.
  intros Hne Hex. unfold load_events. rewrite Hex.
  destruct (String.eqb_spec path ""); [contradiction|reflexivity].
Qed.

End Loading.

Section Pix2pixHDLoading.
Context {F : Framework} {I : Pix2pixHD.Imports}.

Lemma pix_load_step_world (self : Pix2pixHD.Trainer) path w :
  Pix2pixHD.load_path self = Some path -> path <> ""%string ->
  world_after (Pix2pixHD.load_step self) w
  = if os_path_exists path
    then {| params := nn_load_parameters path (params w);
            g_lr := g_lr w; d_lr := d_lr w |}
    else w.
Proof.
  intros Hp Hne. unfold Pix2pixHD.load_step, truthy. rewrite Hp.
  destruct (String.eqb_spec path ""); [contradiction|]. cbn [negb].
  destruct (os_path_exists path); reflexivity.
Qed.

Lemma pix_train_after_load (self : Pix2pixHD.Trainer) w :
  trace (Pix2pixHD.train self) w
  = trace (Pix2pixHD.load_step self) (world_after (Pix2pixHD.declare_graph self) w)
    ++ trace (Pix2pixHD.training self)
             (world_after (Pix2pixHD.load_step self)
                          (world_after (Pix2pixHD.declare_graph self) w)).
Proof.
  unfold Pix2pixHD.train. rewrite trace_bind, trace_bind. reflexivity.
Qed.

End Pix2pixHDLoading.

Section DistillationLoading.
Context {F : Framework} {I : Distillation.Imports}.

Lemma dis_load_step_world (self : Distillation.Trainer) path w :
  Distillation.load_path self = Some path -> path <> ""%string ->
  world_after (Distillation.load_step self) w
  = if os_path_exists path
    then {| params := nn_load_parameters path (params w);
            g_lr := g_lr w; d_lr := d_lr w |}
    else w.
Proof.
  intros Hp Hne. unfold Distillation.load_step, truthy. rewrite Hp.
  destruct (String.eqb_spec path ""); [contradiction|]. cbn [negb].
  destruct (os_path_exists path); reflexivity.
Qed.

Lemma dis_train_after_load (self : Distillation.Trainer) w :
  trace (Distillation.train self) w
  = trace (Distillation.load_step self)
          (world_after (Distillation.declare_graph self) w)
    ++ trace (Distillation.training self)
             (world_after (Distillation.load_step self)
                          (world_after (Distillation.declare_graph self) w)).
Proof.
  unfold Distillation.train. rewrite trace_bind, trace_bind. reflexivity.
Qed.

End DistillationLoading.

(** C2: in both [Trainer.train] methods, with [load_path] set to a
    non-empty path: if the path does not exist, the loading step logs one
    warning and changes nothing, training goes on from the world it found,
    and the run performs no load; if the path exists, the loading step
    calls [nn.load_parameters(load_path)], once.  Either way the run holds
    no second warning or load. *)
Theorem missing_checkpoint_warns_and_skips :
  forall (F : Framework),
    (forall (I : Pix2pixHD.Imports) (self : Pix2pixHD.Trainer) (w : World)
            (path : string),
        Pix2pixHD.load_path self = Some path -> path <> ""%string ->
        let w0 := world_after (Pix2pixHD.declare_graph self) w in
        (os_path_exists path = false ->
         trace (Pix2pixHD.load_step self) w0 = [LoggerWarn (warn_message path)]
         /\ world_after (Pix2pixHD.load_step self) w0 = w0
         /\ trace (Pix2pixHD.train self) w
            = LoggerWarn (warn_message path)
              :: trace (Pix2pixHD.training self) w0
         /\ filter is_load_or_warn (trace (Pix2pixHD.train self) w)
            = [LoggerWarn (warn_message path)])
        /\ (os_path_exists path = true ->
            trace (Pix2pixHD.load_step self) w0 = [LoadParameters path]
            /\ params (world_after (Pix2pixHD.load_step self) w0)
               = nn_load_parameters path (params w0)
            /\ filter is_load_or_warn (trace (Pix2pixHD.train self) w)
               = [LoadParameters path]))
    /\ (forall (I : Distillation.Imports) (self : Distillation.Trainer)
               (w : World) (path : string),
           Distillation.load_path self = Some path -> path <> ""%string ->
           let w0 := world_after (Distillation.declare_graph self) w in
           (os_path_exists path = false ->
            trace (Distillation.load_step self) w0
            = [LoggerWarn (warn_message path)]
            /\ world_after (Distillation.load_step self) w0 = w0
            /\ trace (Distillation.train self) w
               = LoggerWarn (warn_message path)
                 :: trace (Distillation.training self) w0
            /\ filter is_load_or_warn (trace (Distillation.train self) w)
               = [LoggerWarn (warn_message path)])
           /\ (os_path_exists path = true ->
               trace (Distillation.load_step self) w0 = [LoadParameters path]
               /\ params (world_after (Distillation.load_step self) w0)
                  = nn_load_parameters path (params w0)
               /\ filter is_load_or_warn (trace (Distillation.train self) w)
                  = [LoadParameters path])).
Proof.
  intros F. split; intros I self w path Hp Hne w0; split; intros Hex.
  - assert (Hw : world_after (Pix2pixHD.load_step self) w0 = w0)
      by (rewrite (pix_load_step_world self w0 Hp Hne), Hex; reflexivity).
    assert (Ht : trace (Pix2pixHD.load_step self) w0
                 = [LoggerWarn (warn_message path)])
      by (rewrite pix_trace_load_step, Hp; apply (load_events_missing Hne Hex)).
    repeat split; [exact Ht|exact Hw| |].
    + rewrite pix_train_after_load. fold w0. rewrite Ht, Hw. reflexivity.
    + rewrite pix_trace_train, (loads_plan (pix_well_formed self)).
      cbn [Pix2pixHD.plan plan_load_path]. rewrite Hp.
      apply (load_events_missing Hne Hex).
  - repeat split.
    + rewrite pix_trace_load_step, Hp. apply (load_events_found Hne Hex).
    + rewrite (pix_load_step_world self w0 Hp Hne), Hex. reflexivity.
    + rewrite pix_trace_train, (loads_plan (pix_well_formed self)).
      cbn [Pix2pixHD.plan plan_load_path]. rewrite Hp.
      apply (load_events_found Hne Hex).
  - assert (Hw : world_after (Distillation.load_step self) w0 = w0)
      by (rewrite (dis_load_step_world self w0 Hp Hne), Hex; reflexivity).
    assert (Ht : trace (Distillation.load_step self) w0
                 = [LoggerWarn (warn_message path)])
      by (rewrite dis_trace_load_step, Hp; apply (load_events_missing Hne Hex)).
    repeat split; [exact Ht|exact Hw| |].
    + rewrite dis_train_after_load. fold w0. rewrite Ht, Hw. reflexivity.
    + rewrite dis_trace_train, (loads_plan (dis_well_formed self)).
      cbn [Distillation.plan plan_load_path]. rewrite Hp.
      apply (load_events_missing Hne Hex).
  - repeat split.
    + rewrite dis_trace_load_step, Hp. apply (load_events_found Hne Hex).
    + rewrite (dis_load_step_world self w0 Hp Hne), Hex. reflexivity.
    + rewrite dis_trace_train, (loads_plan (dis_well_formed self)).
      cbn [Distillation.plan plan_load_path]. rewrite Hp.
      apply (load_events_found Hne Hex).
Qed.

(** On the demonstration runs of both trainers, with a missing and with
    an existing path. *)
Lemma missing_checkpoint_warns_and_skips_witness :
  let run_pix self :=
    filter is_load_or_warn
      (trace (@Pix2pixHD.train Demo.framework Demo.pix_imports self)
             Demo.world) in
  let run_dis self :=
    filter is_load_or_warn
      (trace (@Distillation.train Demo.framework Demo.dis_imports self)
             Demo.world) in
  (@os_path_exists Demo.framework "out/missing.h5" = false
   /\ run_pix Demo.pix_trainer = [LoggerWarn (@warn_message "out/missing.h5")]
   /\ run_dis Demo.dis_trainer = [LoggerWarn (@warn_message "out/missing.h5")])
  /\ (@os_path_exists Demo.framework "out/param_final.h5" = true
      /\ run_pix Demo.pix_trainer_resumed
         = [LoadParameters "out/param_final.h5"]
      /\ run_dis Demo.dis_trainer_resumed
         = [LoadParameters "out/param_final.h5"]).
Proof.
  assert (Hmissing : "out/missing.h5"%string <> ""%string) by discriminate.
  assert (Hfinal : "out/param_final.h5"%string <> ""%string) by discriminate.
  cbv zeta. split; (split; [reflexivity|split]).
  - destruct (proj1 (missing_checkpoint_warns_and_skips Demo.framework)
                Demo.pix_imports Demo.pix_trainer Demo.world
                "out/missing.h5" eq_refl Hmissing) as [H _].
    destruct (H eq_refl) as (_ & _ & _ & Hrun). exact Hrun.
  - destruct (proj2 (missing_checkpoint_warns_and_skips Demo.framework)
                Demo.dis_imports Demo.dis_trainer Demo.world
                "out/missing.h5" eq_refl Hmissing) as [H _].
    destruct (H eq_refl) as (_ & _ & _ & Hrun). exact Hrun.
  - destruct (proj1 (missing_checkpoint_warns_and_skips Demo.framework)
                Demo.pix_imports Demo.pix_trainer_resumed Demo.world
                "out/param_final.h5" eq_refl Hfinal) as [_ H].
    destruct (H eq_refl) as (_ & _ & Hrun). exact Hrun.
  - destruct (proj2 (missing_checkpoint_warns_and_skips Demo.framework)
                Demo.dis_imports Demo.dis_trainer_resumed Demo.world
                "out/param_final.h5" eq_refl Hfinal) as [_ H].
    destruct (H eq_refl) as (_ & _ & Hrun). exact Hrun.
Defined.

(** ** Learning rates *)

Section LearningRates.
Context {F : Framework}.




End LearningRates.


(** ** The FastSpeech2 decoder *)

Section DecoderFacts.
Import FastSpeech2.

(** *** Attribute names *)

Lemma to_int_proper (z : Z) :
  Z.to_int z <> Decimal.Pos Decimal.Nil /\ Z.to_int z <> Decimal.Neg Decimal.Nil.
Proof.
  destruct z as [|p|p]; cbn; split; try discriminate;
    intros H; injection H as H; apply (Unsigned.to_uint_nonnil _ H).
Qed.

Lemma str_injective (a b : Z) : str a = str b -> a = b.
Proof.
  unfold str. intros H.
  destruct (to_int_proper a) as [Ha1 Ha2], (to_int_proper b) as [Hb1 Hb2].
  pose proof (NilZero.isi (Z.to_int a) Ha1 Ha2) as Ea.
  pose proof (NilZero.isi (Z.to_int b) Hb1 Hb2) as Eb.
  rewrite H, Eb in Ea. injection Ea as Ea.
  rewrite <- (DecimalZ.of_to a), <- (DecimalZ.of_to b), Ea. reflexivity.
Qed.

Lemma fft_block_name_injective (i j : Z) :
  fft_block_name i = fft_block_name j -> i = j.
Proof.
  unfold fft_block_name. cbn. intros H. injection H as H.
  apply str_injective, H.
Qed.

Lemma fft_block_name_eqb (i j : Z) :
  String.eqb (fft_block_name i) (fft_block_name j) = (i =? j).
Proof.
  destruct (Z.eqb_spec i j) as [->|Hne].
  - apply String.eqb_refl.
  - apply String.eqb_neq. intros H. apply Hne, fft_block_name_injective, H.
Qed.

(** *** [setattr] and [getattr] *)

Lemma lookup_assign d name name' block :
  lookup (assign d name block) name'
  = if String.eqb name name' then Some block else lookup d name'.
Proof.
  induction d as [|[k v] d IH]; cbn [assign lookup].
  - destruct (String.eqb name name'); reflexivity.
  - destruct (String.eqb_spec k name) as [->|Hk]; cbn [lookup].
    + destruct (String.eqb name name'); reflexivity.
    + rewrite IH. destruct (String.eqb_spec k name') as [->|Hk'].
      * destruct (String.eqb_spec name name'); [congruence|reflexivity].
      * reflexivity.
Qed.

Lemma lookup_after_setattrs (hp0 : Hparams) (i : Z) l self :
  In i l \/ lookup (attributes self) (fft_block_name i)
            = Some (new_FFTBlock hp0 i) ->
  lookup (attributes
            (fold_left (fun self j =>
                          setattr self (fft_block_name j) (new_FFTBlock hp0 j))
                       l self))
         (fft_block_name i)
  = Some (new_FFTBlock hp0 i).
Proof.
  revert self. induction l as [|j l IH]; intros self H.
  - destruct H as [[]|H]. exact H.
  - cbn [fold_left]. apply IH. cbn [setattr attributes].
    rewrite lookup_assign, fft_block_name_eqb.
    destruct (Z.eqb_spec j i) as [->|Hne]; [right; reflexivity|].
    destruct H as [[H|H]|H]; [contradiction|left; exact H|right; exact H].
Qed.

Lemma fold_setattr_keeps (hp0 : Hparams) l self :
  let self' :=
    fold_left (fun self j =>
                 setattr self (fft_block_name j) (new_FFTBlock hp0 j)) l self in
  hp self' = hp self /\ pos_enc self' = pos_enc self.
Proof.
  cbv zeta. revert self. induction l as [|j l IH]; intros self;
    cbn [fold_left].
  - split; reflexivity.
  - destruct (IH (setattr self (fft_block_name j) (new_FFTBlock hp0 j)))
      as [-> ->]. split; reflexivity.
Qed.

(** After [__init__] the object keeps [hp] and the positional encoding,
    and holds block [i] under the name [fft_block_i] for each layer. *)
Lemma init_attributes gpe (hp0 : Hparams) :
  hp (__init__ gpe hp0) = hp0
  /\ pos_enc (__init__ gpe hp0)
     = gpe (max_len_mel hp0) (decoder_hidden hp0)
  /\ forall i, In i (range (decoder_layer hp0)) ->
               getattr (__init__ gpe hp0) (fft_block_name i)
               = Ok (new_FFTBlock hp0 i).
Proof.
  unfold __init__.
  set (self0 := {| hp := hp0;
                   pos_enc := gpe (max_len_mel hp0) (decoder_hidden hp0);
                   attributes := [] |}).
  destruct (fold_setattr_keeps hp0 (range (decoder_layer hp0)) self0)
    as [Hhp Hpe].
  repeat split; [exact Hhp|exact Hpe|].
  intros i Hi. unfold getattr.
  rewrite lookup_after_setattrs; [reflexivity|left; exact Hi].
Qed.

(** *** The loop over the blocks *)

Lemma for_fold_blocks (self : Decoder) (hp0 : Hparams) mask l x :
  (forall i, In i l ->
             getattr self (fft_block_name i) = Ok (new_FFTBlock hp0 i)) ->
  for_fold l (fun i x =>
                block <- getattr self (fft_block_name i) ;;
                ret (Apply block x mask)) x
  = Ok (fold_left (fun acc i => Apply (new_FFTBlock hp0 i) acc mask) l x).
Proof.
  revert x. induction l as [|i l IH]; intros x H; [reflexivity|].
  cbn [for_fold fold_left]. rewrite (H i (or_introl eq_refl)).
  cbn [bind result_monad result_bind ret]. apply IH.
  intros j Hj. apply H. right. exact Hj.
Qed.

Lemma applied_blocks_fold (hp0 : Hparams) mask l x :
  applied_blocks
    (fold_left (fun acc i => Apply (new_FFTBlock hp0 i) acc mask) l x)
  = applied_blocks x ++ l.
Proof.
  revert x. induction l as [|i l IH]; intros x; cbn [fold_left].
  - symmetry. apply app_nil_r.
  - rewrite IH. cbn [applied_blocks new_FFTBlock block_index].
    rewrite <- app_assoc. reflexivity.
Qed.

Lemma n_transpose_through (hp0 : Hparams) l x :
  n_transpose (through_blocks hp0 l x) = n_transpose x.
Proof.
  unfold through_blocks. revert x.
  induction l as [|i l IH]; intros x; cbn [fold_left]; [reflexivity|].
  rewrite IH. cbn [n_transpose]. apply Nat.add_0_r.
Qed.

Lemma n_masked_fill_through (hp0 : Hparams) l x :
  n_masked_fill (through_blocks hp0 l x) = n_masked_fill x.
Proof.
  unfold through_blocks. revert x.
  induction l as [|i l IH]; intros x; cbn [fold_left]; [reflexivity|].
  rewrite IH. cbn [n_masked_fill]. apply Nat.add_0_r.
Qed.

(** What [call] returns on a freshly constructed decoder. *)
Lemma call_init gpe (hp0 : Hparams) x mask :
  let pe := gpe (max_len_mel hp0) (decoder_hidden hp0) in
  let x0 := Add2 x (Tile pe [batch_size hp0; 1; 1]) in
  call (__init__ gpe hp0) x mask
  = Ok match mask with
       | None => through_blocks hp0 (range (decoder_layer hp0)) x0
       | Some m =>
           let m' := Transpose m [0; 2; 1] in
           MaskedFill
             (fold_left (fun acc i => Apply (new_FFTBlock hp0 i) acc (Some m'))
                        (range (decoder_layer hp0)) x0)
             (Transpose m' [0; 2; 1])
       end.
Proof.
  intros pe x0. destruct (init_attributes gpe hp0) as (Hhp & Hpe & Hget).
  unfold call. rewrite Hhp, Hpe. fold pe. fold x0.
  rewrite (@for_fold_blocks _ hp0 _ _ x0 Hget).
  destruct mask; reflexivity.
Qed.

(** *** Shapes *)

Section Shapes.
Variable shape : variable -> list Z.
Hypothesis shape_add :
  forall a b, shape a = shape b -> shape (Add2 a b) = shape a.
Hypothesis shape_block : forall block v m, shape (Apply block v m) = shape v.
Hypothesis shape_masked_fill : forall v m, shape (MaskedFill v m) = shape v.

Lemma shape_fold_blocks (hp0 : Hparams) mask l x :
  shape (fold_left (fun acc i => Apply (new_FFTBlock hp0 i) acc mask) l x)
  = shape x.
Proof.
  revert x. induction l as [|i l IH]; intros x; cbn [fold_left];
    [reflexivity|]. rewrite IH. apply shape_block.
Qed.

End Shapes.

Lemma shape_with_add leaf a b :
  shape_with leaf a = shape_with leaf b ->
  shape_with leaf (Add2 a b) = shape_with leaf a.
Proof.
  cbn [shape_with]. intros <-.
  induction (shape_with leaf a) as [|d s IH]; [reflexivity|].
  cbn [combine map fst snd]. rewrite IH, Z.max_id. reflexivity.
Qed.

End DecoderFacts.

(** C10: on a decoder made by [__init__], [Decoder.call] returns; the
    result has the shape of the embedding [x] whenever the tiled positional
    encoding has it, element-wise addition of equally shaped operands keeps
    the shape, and [FFTBlock] and [masked_fill] keep the shape of their
    first operand; the blocks applied are those of index 0 to
    [decoder_layer - 1], in this order; and without a mask the result is [x]
    plus the positional encoding tiled [batch_size] times along the first
    axis, passed through these blocks, with no [F.transpose] and no
    [masked_fill] added. *)
Theorem decoder_call_shape_and_block_order :
  forall (shape : FastSpeech2.variable -> list Z)
         (get_positional_encoding : Z -> Z -> FastSpeech2.variable)
         (hp : FastSpeech2.Hparams)
         (x : FastSpeech2.variable) (mask : option FastSpeech2.variable),
    let pos_enc :=
      get_positional_encoding (FastSpeech2.max_len_mel hp)
                              (FastSpeech2.decoder_hidden hp) in
    let tiled := FastSpeech2.Tile pos_enc [FastSpeech2.batch_size hp; 1; 1] in
    (forall a b, shape a = shape b -> shape (FastSpeech2.Add2 a b) = shape a) ->
    (forall block v m, shape (FastSpeech2.Apply block v m) = shape v) ->
    (forall v m, shape (FastSpeech2.MaskedFill v m) = shape v) ->
    shape tiled = shape x ->
    exists y,
      FastSpeech2.call (FastSpeech2.__init__ get_positional_encoding hp) x mask
      = Ok y
      /\ shape y = shape x
      /\ FastSpeech2.applied_blocks y
         = range (FastSpeech2.decoder_layer hp)
      /\ (mask = None ->
          y = FastSpeech2.through_blocks
                hp (range (FastSpeech2.decoder_layer hp))
                (FastSpeech2.Add2 x tiled)
          /\ FastSpeech2.n_transpose y
             = (FastSpeech2.n_transpose x + FastSpeech2.n_transpose pos_enc)%nat
          /\ FastSpeech2.n_masked_fill y
             = (FastSpeech2.n_masked_fill x
                + FastSpeech2.n_masked_fill pos_enc)%nat).
Proof.
  intros shape gpe hp x mask pos_enc tiled Hadd Hblock Hfill Hx.
  pose proof (call_init gpe hp x mask) as Hcall. cbv zeta in Hcall.
  fold pos_enc in Hcall. fold tiled in Hcall.
  eexists. split; [exact Hcall|].
  destruct mask as [m|].
  - repeat split.
    + rewrite Hfill, (shape_fold_blocks shape Hblock). apply Hadd.
      symmetry. exact Hx.
    + cbn [FastSpeech2.applied_blocks]. rewrite applied_blocks_fold.
      reflexivity.
    + discriminate.
    + discriminate.
    + discriminate.
  - repeat split.
    + unfold FastSpeech2.through_blocks.
      rewrite (shape_fold_blocks shape Hblock). apply Hadd.
      symmetry. exact Hx.
    + unfold FastSpeech2.through_blocks. rewrite applied_blocks_fold.
      reflexivity.
    + rewrite n_transpose_through. reflexivity.
    + rewrite n_masked_fill_through. reflexivity.
Qed.

(** On the demonstration decoder, with and without a mask. *)
Lemma decoder_call_shape_and_block_order_witness :
  let shape := FastSpeech2.shape_with FastSpeech2.demo_leaf in
  let self :=
    FastSpeech2.__init__ FastSpeech2.demo_positional_encoding
                         FastSpeech2.demo_hp in
  shape (FastSpeech2.Tile (FastSpeech2.Leaf "pos_enc") [2; 1; 1])
  = shape (FastSpeech2.Leaf "x")
  /\ (exists y,
         FastSpeech2.call self (FastSpeech2.Leaf "x")
                          (Some (FastSpeech2.Leaf "mask")) = Ok y
         /\ shape y = [2; 3; 4]
         /\ FastSpeech2.applied_blocks y = [0; 1])
  /\ (exists y,
         FastSpeech2.call self (FastSpeech2.Leaf "x") None = Ok y
         /\ shape y = [2; 3; 4]
         /\ FastSpeech2.n_transpose y = 0%nat
         /\ FastSpeech2.n_masked_fill y = 0%nat).
Proof.
  cbv zeta. split; [reflexivity|]. split.
  - destruct (decoder_call_shape_and_block_order
                (FastSpeech2.shape_with FastSpeech2.demo_leaf)
                FastSpeech2.demo_positional_encoding FastSpeech2.demo_hp
                (FastSpeech2.Leaf "x") (Some (FastSpeech2.Leaf "mask"))
                (shape_with_add FastSpeech2.demo_leaf)
                (fun _ _ _ => eq_refl) (fun _ _ => eq_refl) eq_refl)
      as (y & Hy & Hs & Hb & _).
    exists y. repeat split; assumption.
  - destruct (decoder_call_shape_and_block_order
                (FastSpeech2.shape_with FastSpeech2.demo_leaf)
                FastSpeech2.demo_positional_encoding FastSpeech2.demo_hp
                (FastSpeech2.Leaf "x") None
                (shape_with_add FastSpeech2.demo_leaf)
                (fun _ _ _ => eq_refl) (fun _ _ => eq_refl) eq_refl)
      as (y & Hy & Hs & _ & Hn).
    destruct (Hn eq_refl) as (_ & Ht & Hf).
    exists y. repeat split; assumption.
Defined.


(** * Properties beyond the claims *)

(** ** [get_params_startswith] as a whole *)

Section GetParamsMore.
Import GetParams.
Context {V : Type}.
Implicit Types (ps r : list (string * V)) (k p q : string).

Lemma split_not_nil (sep : ascii) (s : string) : split sep s <> [].
Proof.
  destruct s as [|c s]; cbn [split]; [discriminate|].
  destruct (Ascii.eqb c sep); [discriminate|].
  destruct (split sep s); discriminate.
Qed.

Lemma split_length (sep : ascii) (s : string) :
  (if occurs sep s then 2 <= List.length (split sep s)
   else List.length (split sep s) = 1)%nat.
Proof.
  induction s as [|c s IH]; [reflexivity|].
  cbn [split occurs]. destruct (Ascii.eqb c sep); cbn [orb].
  - pose proof (split_not_nil sep s) as Hn.
    destruct (split sep s); [contradiction|]. cbn. lia.
  - destruct (split sep s) as [|h t]; [destruct (occurs sep s); cbn in *; lia|].
    exact IH.
Qed.

Lemma has_scope_occurs k : has_scope k <-> occurs "/" k = true.
Proof.
  unfold has_scope, second_to_last.
  pose proof (split_length "/" k) as H.
  rewrite <- (length_rev (split "/" k)) in H.
  destruct (rev (split "/" k)) as [|a [|c r]], (occurs "/" k); cbn in H;
    split; intros E; try reflexivity; try discriminate; try lia;
    try (exfalso; apply E; reflexivity).
Qed.

Lemma scoped_or_not ps :
  Forall (fun kv => occurs "/" (fst kv) = true) ps
  \/ Exists (fun kv => occurs "/" (fst kv) = false) ps.
Proof.
  induction ps as [|[k v] ps [IH|IH]].
  - left. constructor.
  - cbn. destruct (occurs "/" k) eqn:E.
    + left. constructor; assumption.
    + right. left. exact E.
  - right. right. exact IH.
Qed.

Lemma Forall_has_scope ps :
  Forall (fun kv => occurs "/" (fst kv) = true) ps ->
  Forall (fun kv => has_scope (fst kv)) ps.
Proof.
  apply Forall_impl. intros kv H. apply has_scope_occurs, H.
Qed.

Lemma Exists_no_scope ps :
  Exists (fun kv => occurs "/" (fst kv) = false) ps ->
  Exists (fun kv => ~ has_scope (fst kv)) ps.
Proof.
  apply Exists_impl. intros kv H Hs. apply has_scope_occurs in Hs. congruence.
Qed.

Lemma selected_filter ps p b :
  filter (selected p b) ps
  = filter (fun kv => startswith (fst kv) p)
           (if b then filter (fun kv => keeps (fst kv)) ps else ps).
Proof.
  unfold selected. destruct b; cbn [negb orb].
  - induction ps as [|kv ps IH]; [reflexivity|]. cbn [filter].
    destruct (keeps (fst kv)); cbn [filter];
      destruct (startswith (fst kv) p); cbn [andb]; rewrite IH; reflexivity.
  - apply filter_ext. intros kv. apply andb_true_r.
Qed.

(** The result, whenever there is one. *)
Lemma get_params_startswith_result ps p b r :
  get_params_startswith ps p b = Ok r -> r = filter (selected p b) ps.
Proof.
  intros H. rewrite selected_filter. destruct b.
  - destruct (scoped_or_not ps) as [Hs|He].
    + rewrite (get_params_startswith_scoped p (Forall_has_scope Hs)) in H.
      injection H as <-. reflexivity.
    + rewrite (get_params_startswith_unscoped p (Exists_no_scope He)) in H.
      discriminate H.
  - rewrite get_params_startswith_plain in H. injection H as <-. reflexivity.
Qed.

End GetParamsMore.

(** X1: with [ignore_in=True], [get_params_startswith] raises [IndexError]
    exactly when some key of the parameter store contains no ['/'], and this
    whatever the prefix asked for; it returns exactly when every key
    contains one.  With [ignore_in=False] it always returns. *)
Theorem get_params_startswith_raises_iff_key_without_slash :
  forall (V : Type) (ps : list (string * V)) (p : string),
    (GetParams.get_params_startswith ps p true = Raise IndexError
     <-> Exists (fun kv => occurs "/" (fst kv) = false) ps)
    /\ ((exists r, GetParams.get_params_startswith ps p true = Ok r)
        <-> Forall (fun kv => occurs "/" (fst kv) = true) ps)
    /\ (exists r, GetParams.get_params_startswith ps p false = Ok r).
Proof.
  intros V ps p. repeat split.
  - intros H. destruct (scoped_or_not ps) as [Hs|He]; [|exact He].
    rewrite (get_params_startswith_scoped p (Forall_has_scope Hs)) in H.
    discriminate H.
  - intros He. apply get_params_startswith_unscoped, Exists_no_scope, He.
  - intros [r H]. destruct (scoped_or_not ps) as [Hs|He]; [exact Hs|].
    rewrite (get_params_startswith_unscoped p (Exists_no_scope He)) in H.
    discriminate H.
  - intros Hs. eexists. apply get_params_startswith_scoped, Forall_has_scope, Hs.
  - eexists. apply get_params_startswith_plain.
Qed.

(** X2: whenever [get_params_startswith(p, ignore_in)] returns, the result
    holds, in the order of the store, exactly the entries whose key starts
    with [p] and, under [ignore_in], whose second-to-last component is not
    [instance_normalization]. *)
Theorem get_params_startswith_returns_selected_entries :
  forall (V : Type) (ps r : list (string * V)) (p : string) (ignore_in : bool),
    GetParams.get_params_startswith ps p ignore_in = Ok r ->
    r = filter (selected p ignore_in) ps
    /\ forall k v,
        In (k, v) r
        <-> In (k, v) ps
            /\ startswith k p = true
            /\ (ignore_in = true ->
                GetParams.second_to_last k
                <> Some "instance_normalization"%string).
Proof.
  intros V ps r p b H.
  pose proof (get_params_startswith_result _ _ _ H) as Hr.
  split; [exact Hr|]. intros k v. subst r. rewrite filter_In.
  unfold selected, GetParams.keeps. cbn [fst].
  assert (Hscope : b = true -> In (k, v) ps ->
                   GetParams.second_to_last k <> None).
  { intros -> Hin.
    destruct (scoped_or_not ps) as [Hs|He].
    - rewrite Forall_forall in Hs. apply (has_scope_occurs k), (Hs _ Hin).
    - rewrite (get_params_startswith_unscoped p (Exists_no_scope He)) in H.
      discriminate H. }
  split.
  - intros [Hin Hsel]. apply andb_true_iff in Hsel as [Hp Hk].
    repeat split; [exact Hin|exact Hp|]. intros -> E.
    rewrite E in Hk. discriminate Hk.
  - intros (Hin & Hp & Hk). split; [exact Hin|]. rewrite Hp. cbn [andb].
    destruct b; [|reflexivity]. cbn [negb orb].
    specialize (Hscope eq_refl Hin). specialize (Hk eq_refl).
    destruct (GetParams.second_to_last k) as [c|]; [|contradiction].
    destruct (String.eqb_spec c "instance_normalization") as [->|Hne];
      [contradiction|reflexivity].
Qed.

Lemma get_params_startswith_returns_selected_entries_witness :
  let store :=
    [ ("generator/local/conv/W", 1);
      ("generator/local/instance_normalization/gamma", 2);
      ("discriminator/d_0/conv/b", 3) ]%string in
  GetParams.get_params_startswith store "generator" true
  = Ok [("generator/local/conv/W", 1)]%string
  /\ [("generator/local/conv/W", 1)]%string
     = filter (selected "generator" true) store.
Proof.
  cbv zeta. split; [reflexivity|].
  refine (proj1 (@get_params_startswith_returns_selected_entries
                   _ _ _ "generator" true _)).
  reflexivity.
Defined.

Section PrefixFacts.
Import GetParams.
Context {V : Type}.
Implicit Types (ps r : list (string * V)) (k p q : string).

Lemma prefix_trans p q k :
  String.prefix p q = true -> String.prefix q k = true ->
  String.prefix p k = true.
Proof.
  revert q k. induction p as [|a p IH]; intros q k Hpq Hqk;
    [destruct k; reflexivity|].
  destruct q as [|b q]; [discriminate Hpq|].
  destruct k as [|c k]; [discriminate Hqk|].
  cbn [String.prefix] in *.
  destruct (ascii_dec a b) as [->|]; [|discriminate Hpq].
  destruct (ascii_dec b c) as [->|]; [|discriminate Hqk].
  apply (IH q k Hpq Hqk).
Qed.

Lemma prefix_comparable p q k :
  String.prefix p k = true -> String.prefix q k = true ->
  String.prefix p q = true \/ String.prefix q p = true.
Proof.
  revert q k. induction p as [|a p IH]; intros q k Hp Hq;
    [left; destruct q; reflexivity|].
  destruct q as [|b q]; [right; reflexivity|].
  destruct k as [|c k]; [discriminate Hp|].
  cbn [String.prefix] in *.
  destruct (ascii_dec a c) as [->|]; [|discriminate Hp].
  destruct (ascii_dec b c) as [->|]; [|discriminate Hq].
  destruct (ascii_dec c c) as [_|Hne]; [|contradiction].
  apply (IH q k Hp Hq).
Qed.

(** Whether the call returns does not depend on the prefix. *)
Lemma get_params_startswith_any_prefix ps p q b r :
  get_params_startswith ps p b = Ok r ->
  get_params_startswith ps q b = Ok (filter (selected q b) ps).
Proof.
  intros H. rewrite selected_filter. destruct b.
  - destruct (scoped_or_not ps) as [Hs|He].
    + apply get_params_startswith_scoped, Forall_has_scope, Hs.
    + rewrite (get_params_startswith_unscoped p (Exists_no_scope He)) in H.
      discriminate H.
  - apply get_params_startswith_plain.
Qed.

Lemma filter_selected_again ps p b :
  filter (selected p b) (filter (selected p b) ps) = filter (selected p b) ps.
Proof.
  induction ps as [|kv ps IH]; [reflexivity|]. cbn [filter].
  destruct (selected p b kv) eqn:E; [|exact IH].
  cbn [filter]. rewrite E, IH. reflexivity.
Qed.

Lemma filter_filter_and {A} (f g : A -> bool) (l : list A) :
  filter f (filter g l) = filter (fun x => g x && f x) l.
Proof.
  induction l as [|x l IH]; [reflexivity|]. cbn [filter].
  destruct (g x); cbn [filter andb]; [destruct (f x)|]; rewrite IH;
    reflexivity.
Qed.

Lemma filter_selected_longer ps p q b :
  startswith q p = true ->
  filter (fun kv => startswith (fst kv) q) (filter (selected p b) ps)
  = filter (selected q b) ps.
Proof.
  intros Hqp. rewrite filter_filter_and. apply filter_ext. intros kv.
  unfold selected.
  destruct (startswith (fst kv) q) eqn:Hq.
  - assert (Hp : startswith (fst kv) p = true)
      by (apply (prefix_trans _ _ _ Hqp Hq)).
    rewrite Hp. cbn [andb]. apply andb_true_r.
  - cbn [andb]. apply andb_false_r.
Qed.

End PrefixFacts.

(** X3: asking for a longer prefix refines the answer for a shorter one:
    when [q] starts with [p] and the call for [p] returns, the call for
    [q] returns the entries of that result whose key starts with [q].  So
    the parameters first given to the generator solver
    (["generator/local"]) are among those given to it later
    (["generator"]). *)
Theorem get_params_startswith_longer_prefix_refines :
  forall (V : Type) (ps r : list (string * V)) (p q : string)
         (ignore_in : bool),
    startswith q p = true ->
    GetParams.get_params_startswith ps p ignore_in = Ok r ->
    GetParams.get_params_startswith ps q ignore_in
    = Ok (filter (fun kv => startswith (fst kv) q) r).
Proof.
  intros V ps r p q b Hqp H.
  rewrite (@get_params_startswith_any_prefix V ps p q b r H).
  rewrite (@get_params_startswith_result V ps p b r H).
  rewrite (@filter_selected_longer V ps p q b Hqp). reflexivity.
Qed.

Lemma get_params_startswith_longer_prefix_refines_witness :
  let store :=
    [ ("generator/local/conv/W", 1); ("generator/global/conv/W", 2);
      ("discriminator/d_0/conv/b", 3) ]%string in
  startswith "generator/local" "generator" = true
  /\ GetParams.get_params_startswith store "generator/local" true
     = Ok (filter (fun kv => startswith (fst kv) "generator/local")
                  [("generator/local/conv/W", 1);
                   ("generator/global/conv/W", 2)]%string).
Proof.
  cbv zeta. split; [reflexivity|].
  apply (@get_params_startswith_longer_prefix_refines
           _ _ _ "generator" "generator/local" true); reflexivity.
Defined.

(** X4: two prefixes of which neither starts with the other select
    disjoint sets of parameters: no key is returned for both.  The
    generator solver (["generator"], ["generator/local"]) and the
    discriminator solver (["discriminator"]) never share a parameter. *)
Theorem get_params_startswith_disjoint_prefixes :
  forall (V : Type) (ps r1 r2 : list (string * V)) (p q : string)
         (b1 b2 : bool) (k : string),
    startswith p q = false -> startswith q p = false ->
    GetParams.get_params_startswith ps p b1 = Ok r1 ->
    GetParams.get_params_startswith ps q b2 = Ok r2 ->
    In k (keys r1) -> ~ In k (keys r2).
Proof.
  intros V ps r1 r2 p q b1 b2 k Hpq Hqp H1 H2 Hk1 Hk2.
  unfold keys in *. apply in_map_iff in Hk1 as [[k1 v1] [E1 Hk1]].
  apply in_map_iff in Hk2 as [[k2 v2] [E2 Hk2]]. cbn [fst] in *. subst k1 k2.
  apply (@get_params_startswith_sound V ps p b1 r1 H1) in Hk1 as [_ Hp].
  apply (@get_params_startswith_sound V ps q b2 r2 H2) in Hk2 as [_ Hq].
  cbn [fst] in *. unfold startswith in *.
  destruct (@prefix_comparable p q k Hp Hq) as [E|E]; congruence.
Qed.

Lemma get_params_startswith_disjoint_prefixes_witness :
  let store :=
    [ ("generator/local/conv/W", 1); ("discriminator/d_0/conv/b", 2) ]%string in
  ~ In "generator/local/conv/W"%string
       (keys [("discriminator/d_0/conv/b", 2)]%string).
Proof.
  cbv zeta.
  apply (@get_params_startswith_disjoint_prefixes
           _ [("generator/local/conv/W", 1);
              ("discriminator/d_0/conv/b", 2)]%string
           [("generator/local/conv/W", 1)]%string
           [("discriminator/d_0/conv/b", 2)]%string
           "generator" "discriminator" true true);
    try reflexivity.
  left. reflexivity.
Defined.

(** X5: [get_params_startswith] is idempotent: called with the same
    arguments on a dictionary it returned, it returns that dictionary. *)
Theorem get_params_startswith_idempotent :
  forall (V : Type) (ps r : list (string * V)) (p : string) (ignore_in : bool),
    GetParams.get_params_startswith ps p ignore_in = Ok r ->
    GetParams.get_params_startswith r p ignore_in = Ok r.
Proof.
  intros V ps r p b H.
  pose proof (@get_params_startswith_result V ps p b r H) as Hr.
  assert (Hagain : exists r', GetParams.get_params_startswith r p b = Ok r').
  { destruct b; [|eexists; apply get_params_startswith_plain].
    destruct (scoped_or_not ps) as [Hs|He].
    - eexists. apply get_params_startswith_scoped, Forall_has_scope.
      subst r. rewrite Forall_forall in *. intros kv Hin.
      apply filter_In in Hin as [Hin _]. apply Hs, Hin.
    - rewrite (get_params_startswith_unscoped p (Exists_no_scope He)) in H.
      discriminate H. }
  destruct Hagain as [r' Hr'].
  rewrite Hr', (@get_params_startswith_result V r p b r' Hr').
  rewrite Hr at 1. rewrite filter_selected_again, <- Hr. reflexivity.
Qed.

Lemma get_params_startswith_idempotent_witness :
  GetParams.get_params_startswith
    [("generator/local/conv/W", 1)]%string "generator" true
  = Ok [("generator/local/conv/W", 1)]%string.
Proof.
  apply (@get_params_startswith_idempotent
           _ [("generator/local/conv/W", 1);
              ("generator/local/instance_normalization/gamma", 2);
              ("discriminator/d_0/conv/b", 3)]%string).
  reflexivity.
Defined.

(** ** More on the runs of the two trainers *)

Section PlanMore.
Context {F : Framework}.

Lemma load_events_falsy (lp : option string) :
  truthy lp = false -> load_events lp = [].
Proof.
  unfold truthy, load_events. destruct lp as [path|]; [|reflexivity].
  destruct (String.eqb path ""); [reflexivity|discriminate].
Qed.

Lemma range_nonpositive (n : Z) : n <= 0 -> range n = [].
Proof.
  intros H. unfold range. replace (Z.to_nat n) with 0%nat by lia. reflexivity.
Qed.

Lemma range_succ (n : nat) :
  range (Z.of_nat (S n)) = range (Z.of_nat n) ++ [Z.of_nat n].
Proof.
  unfold range. rewrite !Nat2Z.id, seq_S, map_app. reflexivity.
Qed.









End PlanMore.

(** X6: in both [Trainer.train] methods a [load_path] that is [None] or
    the empty string loads nothing and warns about nothing: the loading
    step performs no call and leaves the world as it is, and the whole run
    holds neither a [nn.load_parameters] nor a warning. *)
Theorem no_load_path_no_load_no_warning :
  forall (F : Framework),
    (forall (I : Pix2pixHD.Imports) (self : Pix2pixHD.Trainer) (w : World),
        truthy (Pix2pixHD.load_path self) = false ->
        trace (Pix2pixHD.load_step self) w = []
        /\ world_after (Pix2pixHD.load_step self) w = w
        /\ filter is_load_or_warn (trace (Pix2pixHD.train self) w) = [])
    /\ (forall (I : Distillation.Imports) (self : Distillation.Trainer)
               (w : World),
           truthy (Distillation.load_path self) = false ->
           trace (Distillation.load_step self) w = []
           /\ world_after (Distillation.load_step self) w = w
           /\ filter is_load_or_warn (trace (Distillation.train self) w) = []).
Proof.
  intros F. split; intros I self w H; repeat split.
  - unfold Pix2pixHD.load_step. rewrite H. reflexivity.
  - unfold Pix2pixHD.load_step. rewrite H. reflexivity.
  - rewrite pix_trace_train, (loads_plan (pix_well_formed self)).
    apply load_events_falsy, H.
  - unfold Distillation.load_step. rewrite H. reflexivity.
  - unfold Distillation.load_step. rewrite H. reflexivity.
  - rewrite dis_trace_train, (loads_plan (dis_well_formed self)).
    apply load_events_falsy, H.
Qed.

Lemma no_load_path_no_load_no_warning_witness :
  filter is_load_or_warn
    (trace (@Pix2pixHD.train Demo.framework Demo.pix_imports
                             Cases.pix_untrained) Demo.world) = []
  /\ filter is_load_or_warn
       (trace (@Distillation.train Demo.framework Demo.dis_imports
                                   Cases.dis_untrained) Demo.world) = [].
Proof.
  split.
  - apply (proj1 (no_load_path_no_load_no_warning Demo.framework)
             Demo.pix_imports Cases.pix_untrained Demo.world eq_refl).
  - apply (proj2 (no_load_path_no_load_no_warning Demo.framework)
             Demo.dis_imports Cases.dis_untrained Demo.world eq_refl).
Defined.






(** X10: the passes of an epoch never ask for more samples than the data
    iterator has, and leave less than one batch unused: with a
    non-negative [_size], pix2pixHD runs [_size // _batch_size] passes of
    [_batch_size] samples, and the distillation trainer
    [_size // bs // n_procs] passes, which is [_size // (bs * n_procs)], of
    [bs] samples on each of the [n_procs] workers. *)
Theorem passes_of_an_epoch_fit_the_dataset :
  forall (F : Framework),
    (forall (I : Pix2pixHD.Imports) (self : Pix2pixHD.Trainer)
            (lr_schduler : Z -> LR) (e : Z) (w : World),
        0 <= _size (Pix2pixHD.data_iter self) ->
        let passes :=
          Z.of_nat (List.length
                      (fst (fst (Pix2pixHD.epoch_begin self lr_schduler e w)))) in
        let batch := Z.pos (_batch_size (Pix2pixHD.data_iter self)) in
        passes * batch <= _size (Pix2pixHD.data_iter self)
        < (passes + 1) * batch)
    /\ (forall (I : Distillation.Imports) (self : Distillation.Trainer)
               (lr_schduler : Z -> LR) (e : Z) (w : World),
           0 <= _size (Distillation.data_iter self) ->
           let passes :=
             Z.of_nat (List.length
                         (fst (fst (Distillation.epoch_begin
                                      self lr_schduler e w)))) in
           let batch :=
             Z.pos (Distillation.bs self)
             * Z.pos (n_procs (Distillation.comm self)) in
           passes = _size (Distillation.data_iter self) / batch
           /\ passes * batch <= _size (Distillation.data_iter self)
              < (passes + 1) * batch).
Proof.
  intros F. split; intros I self sched e w Hsize passes batch.
  - destruct (pix_epoch_begin self sched e w) as (Hv & _).
    subst passes. rewrite Hv, length_range.
    unfold Pix2pixHD.iterations_per_epoch, floordiv. fold batch.
    assert (Hb : 0 < batch) by (subst batch; lia).
    pose proof (Z.div_pos _ _ Hsize Hb) as Hq.
    rewrite (Z2Nat.id _ Hq).
    pose proof (Z.div_mod (_size (Pix2pixHD.data_iter self)) batch
                  ltac:(lia)) as Hdm.
    pose proof (Z.mod_pos_bound (_size (Pix2pixHD.data_iter self)) batch Hb).
    nia.
  - destruct (dis_epoch_begin self sched e w) as (Hv & _).
    subst passes. rewrite Hv, length_range.
    unfold Distillation.iterations_per_epoch, floordiv.
    rewrite Z.div_div by lia. fold batch.
    assert (Hb : 0 < batch) by (subst batch; lia).
    pose proof (Z.div_pos _ _ Hsize Hb) as Hq.
    rewrite (Z2Nat.id _ Hq). split; [reflexivity|].
    pose proof (Z.div_mod (_size (Distillation.data_iter self)) batch
                  ltac:(lia)) as Hdm.
    pose proof (Z.mod_pos_bound (_size (Distillation.data_iter self)) batch Hb).
    nia.
Qed.

(** Three samples in batches of two: one pass; nine samples in batches of
    two on two workers: two passes. *)
Lemma passes_of_an_epoch_fit_the_dataset_witness :
  (1 * 2 <= 3 < (1 + 1) * 2) /\ (2 * (2 * 2) <= 9 < (2 + 1) * (2 * 2)).
Proof.
  split.
  - refine (proj1 (passes_of_an_epoch_fit_the_dataset Demo.framework)
              Demo.pix_imports Cases.pix_small (fun _ => 0) 0 Demo.world _).
    vm_compute. discriminate.
  - refine (proj2 (proj2 (passes_of_an_epoch_fit_the_dataset Demo.framework)
                     Demo.dis_imports Cases.dis_small (fun _ => 0) 0
                     Demo.world _)).
    vm_compute. discriminate.
Defined.

(** ** Checkpoint names *)

Section Names.

Lemma string_append_cancel_l (a b b' : string) :
  (a ++ b)%string = (a ++ b')%string -> b = b'.
Proof.
  induction a as [|c a IH]; cbn; intros H; [exact H|].
  injection H as H. apply IH, H.
Qed.

Lemma string_length_append (a b : string) :
  String.length (a ++ b) = (String.length a + String.length b)%nat.
Proof. induction a as [|c a IH]; cbn; [reflexivity|]. rewrite IH. reflexivity. Qed.

Lemma string_append_cancel_r (a a' b : string) :
  (a ++ b)%string = (a' ++ b)%string -> a = a'.
Proof.
  revert a'. induction a as [|c a IH]; intros [|c' a'] H; cbn in H.
  - reflexivity.
  - apply (f_equal String.length) in H. cbn in H.
    rewrite string_length_append in H. lia.
  - apply (f_equal String.length) in H. cbn in H.
    rewrite string_length_append in H. lia.
  - injection H as -> H. f_equal. apply IH, H.
Qed.

Lemma uint_of_string_zeros (k : nat) (s : string) :
  NilEmpty.uint_of_string (zeros k ++ s)
  = option_map (Nat.iter k Decimal.D0) (NilEmpty.uint_of_string s).
Proof.
  induction k as [|k IH]; cbn [zeros append Nat.iter].
  - destruct (NilEmpty.uint_of_string s); reflexivity.
  - change (NilEmpty.uint_of_string (String "0" (zeros k ++ s)))
      with (uint_of_char "0" (NilEmpty.uint_of_string (zeros k ++ s))).
    rewrite IH. destruct (NilEmpty.uint_of_string s); reflexivity.
Qed.

Lemma of_uint_leading_zeros (k : nat) (d : Decimal.uint) :
  N.of_uint (Nat.iter k Decimal.D0 d) = N.of_uint d.
Proof. induction k as [|k IH]; [reflexivity|]. cbn. exact IH. Qed.

Lemma read_digits_zfill (width : nat) (d : Decimal.uint) :
  read_digits (zfill width (NilZero.string_of_uint d)) = Some (N.of_uint d).
Proof.
  unfold read_digits, zfill. rewrite uint_of_string_zeros.
  destruct d; cbn [NilZero.string_of_uint];
    try (rewrite NilEmpty.usu; cbn [option_map];
         rewrite of_uint_leading_zeros; reflexivity).
  cbn [NilEmpty.uint_of_string uint_of_char option_map].
  rewrite of_uint_leading_zeros. reflexivity.
Qed.

(** The epoch number can be read back from the digits of its name. *)
Lemma read_digits_format_03d (e : Z) :
  0 <= e -> read_digits (format_03d e) = Some (Z.to_N e).
Proof.
  intros He. unfold format_03d. destruct e as [|p|p]; [| |lia]; cbn [Z.to_int].
  - reflexivity.
  - rewrite read_digits_zfill. unfold N.of_uint.
    rewrite Unsigned.of_to. reflexivity.
Qed.

Lemma format_03d_injective (e e' : Z) :
  0 <= e -> 0 <= e' -> format_03d e = format_03d e' -> e = e'.
Proof.
  intros He He' H. apply (f_equal read_digits) in H.
  rewrite !read_digits_format_03d in H by assumption.
  injection H as H. lia.
Qed.

Lemma checkpoint_name_injective (e e' : Z) :
  0 <= e -> 0 <= e' ->
  ("param_" ++ format_03d e ++ ".h5")%string
  = ("param_" ++ format_03d e' ++ ".h5")%string ->
  e = e'.
Proof.
  intros He He' H. apply string_append_cancel_l in H.
  apply string_append_cancel_r in H. apply (format_03d_injective He He' H).
Qed.

Lemma checkpoint_name_not_final (e : Z) :
  0 <= e ->
  ("param_" ++ format_03d e ++ ".h5")%string <> "param_final.h5"%string.
Proof.
  intros He H.
  change "param_final.h5"%string
    with ("param_" ++ "final" ++ ".h5")%string in H.
  apply string_append_cancel_l, string_append_cancel_r in H.
  apply (f_equal read_digits) in H.
  rewrite (read_digits_format_03d He) in H. discriminate H.
Qed.

Lemma os_path_join_injective (a b b' : string) :
  startswith b "/" = false -> startswith b' "/" = false ->
  os_path_join a b = os_path_join a b' -> b = b'.
Proof.
  intros Hb Hb' H. rewrite !os_path_join_relative in H by assumption.
  destruct ((String.eqb a "") || ends_with_slash a).
  - apply (string_append_cancel_l _ _ _ H).
  - apply string_append_cancel_l, string_append_cancel_l in H. exact H.
Qed.

End Names.

Section DistinctCheckpoints.
Context {F : Framework}.

Lemma saved_paths_filter (t : list Event) :
  saved_paths t = saved_paths (filter is_save t).
Proof.
  induction t as [|e t IH]; [reflexivity|].
  destruct e; cbn [saved_paths flat_map filter is_save app]; try exact IH.
  fold (saved_paths t). fold (saved_paths (filter is_save t)).
  rewrite IH. reflexivity.
Qed.

Lemma saved_paths_checkpoints (p : Plan) (l : list Z) :
  saved_paths (flat_map (checkpoint_events p) l)
  = if plan_rank p =? 0
    then map (fun e => os_path_join (plan_save_path p)
                         ("param_" ++ format_03d e ++ ".h5")%string)
             (filter (fun e => e mod plan_period p =? 0) l)
    else [].
Proof.
  induction l as [|e l IH]; [destruct (plan_rank p =? 0); reflexivity|].
  cbn [flat_map filter]. unfold saved_paths in *. rewrite flat_map_app, IH.
  unfold checkpoint_events.
  destruct (e mod plan_period p =? 0), (plan_rank p =? 0); reflexivity.
Qed.

Lemma NoDup_range (n : Z) : NoDup (range n).
Proof.
  unfold range. apply NoDup_map_NoDup_ForallPairs; [|apply seq_NoDup].
  intros a b _ _ H. lia.
Qed.

Lemma saved_paths_plan_distinct (p : Plan) :
  well_formed p -> NoDup (saved_paths (plan_events p)).
Proof.
  intros Hwf. rewrite saved_paths_filter, (saves_plan Hwf).
  unfold saved_paths at 1. rewrite flat_map_app.
  fold (saved_paths (flat_map (checkpoint_events p) (range (plan_epochs p)))).
  fold (saved_paths (final_events p)).
  rewrite saved_paths_checkpoints. unfold final_events.
  destruct (plan_rank p =? 0); [|constructor].
  cbn [saved_paths flat_map app].
  assert (Hin : forall e,
             In e (filter (fun e => e mod plan_period p =? 0)
                          (range (plan_epochs p))) -> 0 <= e).
  { intros e He. apply filter_In in He as [He _]. apply in_range in He. lia. }
  apply NoDup_app.
  - apply NoDup_map_NoDup_ForallPairs; [|apply NoDup_filter, NoDup_range].
    intros a b Ha Hb H.
    apply os_path_join_injective in H; try reflexivity.
    apply (checkpoint_name_injective (Hin a Ha) (Hin b Hb) H).
  - repeat constructor. intros [].
  - intros path Hp [E|[]]. apply in_map_iff in Hp as [e [He Hp]].
    rewrite <- He in E. apply os_path_join_injective in E; try reflexivity.
    symmetry in E. apply (checkpoint_name_not_final (Hin e Hp) E).
Qed.

End DistinctCheckpoints.

(** X11: a run of either trainer never writes the same file twice: the
    names ['param_{:03d}.h5'] of different epochs differ, none of them is
    ['param_final.h5'], and joining them to the save path keeps them
    apart. *)
Theorem run_never_overwrites_its_checkpoints :
  forall (F : Framework),
    (forall (I : Pix2pixHD.Imports) (self : Pix2pixHD.Trainer) (w : World),
        NoDup (saved_paths (trace (Pix2pixHD.train self) w)))
    /\ (forall (I : Distillation.Imports) (self : Distillation.Trainer)
               (w : World),
           NoDup (saved_paths (trace (Distillation.train self) w))).
Proof.
  intros F. split; intros I self w.
  - rewrite pix_trace_train.
    apply (saved_paths_plan_distinct (pix_well_formed self)).
  - rewrite dis_trace_train.
    apply (saved_paths_plan_distinct (dis_well_formed self)).
Qed.

(** ** The parameter store over a run *)

Section StoreFacts.
Context {F : Framework}.





End StoreFacts.

Section Pix2pixHDStore.
Context {F : Framework} {I : Pix2pixHD.Imports}.
Implicit Types (self : Pix2pixHD.Trainer) (w : World).




End Pix2pixHDStore.

Section DistillationStore.
Context {F : Framework} {I : Distillation.Imports}.
Implicit Types (self : Distillation.Trainer) (w : World).




End DistillationStore.



(** ** More on the FastSpeech2 decoder *)

Section DecoderMore.
Import FastSpeech2.

Lemma lookup_named_blocks (hp0 : Hparams) (l : list Z) (i : Z) :
  ~ In i l ->
  lookup (map (fun j => (fft_block_name j, new_FFTBlock hp0 j)) l)
         (fft_block_name i) = None.
Proof.
  induction l as [|j l IH]; intros Hi; [reflexivity|].
  cbn [map lookup]. rewrite fft_block_name_eqb.
  destruct (Z.eqb_spec j i) as [->|Hne]; [exfalso; apply Hi; left; reflexivity|].
  apply IH. intros H. apply Hi. right. exact H.
Qed.

Lemma assign_new d name block :
  lookup d name = None -> assign d name block = d ++ [(name, block)].
Proof.
  induction d as [|[k v] d IH]; intros H; [reflexivity|].
  cbn [assign lookup app] in *.
  destruct (String.eqb k name); [discriminate H|]. rewrite (IH H). reflexivity.
Qed.

Lemma not_in_range_self (k : nat) : ~ In (Z.of_nat k) (range (Z.of_nat k)).
Proof. intros H. apply in_range in H. lia. Qed.

Lemma attributes_after_setattrs (hp0 : Hparams) (self : Decoder) (k : nat) :
  attributes self = [] ->
  attributes
    (fold_left (fun self j =>
                  setattr self (fft_block_name j) (new_FFTBlock hp0 j))
               (range (Z.of_nat k)) self)
  = map (fun j => (fft_block_name j, new_FFTBlock hp0 j)) (range (Z.of_nat k)).
Proof.
  intros Hempty. induction k as [|k IH]; [exact Hempty|].
  rewrite range_succ, fold_left_app, map_app. cbn [fold_left setattr attributes].
  rewrite IH, assign_new; [reflexivity|].
  apply lookup_named_blocks, not_in_range_self.
Qed.

Lemma init_attribute_list gpe (hp0 : Hparams) :
  attributes (__init__ gpe hp0)
  = map (fun j => (fft_block_name j, new_FFTBlock hp0 j))
        (range (decoder_layer hp0)).
Proof.
  unfold __init__.
  assert (Hr : range (decoder_layer hp0)
               = range (Z.of_nat (Z.to_nat (decoder_layer hp0))))
    by (unfold range; rewrite Nat2Z.id; reflexivity).
  rewrite Hr. apply attributes_after_setattrs. reflexivity.
Qed.

Lemma for_fold_app {A S} (body : A -> S -> result S) l1 l2 s :
  for_fold (l1 ++ l2) body s
  = (s' <- for_fold l1 body s ;; for_fold l2 body s').
Proof.
  revert s. induction l1 as [|i l1 IH]; intros s; [reflexivity|].
  cbn [for_fold app bind result_monad result_bind].
  destruct (body i s) as [s'|err]; [apply IH|reflexivity].
Qed.

Lemma for_fold_present (self : Decoder) mask l x :
  (forall j, In j l -> lookup (attributes self) (fft_block_name j) <> None) ->
  exists y,
    for_fold l (fun i x =>
                  block <- getattr self (fft_block_name i) ;;
                  ret (Apply block x mask)) x = Ok y.
Proof.
  revert x. induction l as [|i l IH]; intros x H; [eexists; reflexivity|].
  cbn [for_fold]. unfold getattr at 1.
  destruct (lookup (attributes self) (fft_block_name i)) as [b|] eqn:E;
    [|exfalso; apply (H i (or_introl eq_refl) E)].
  cbn [bind result_monad result_bind ret]. apply IH.
  intros j Hj. apply H. right. exact Hj.
Qed.

End DecoderMore.

(** X13: [Decoder.__init__] leaves exactly [decoder_layer] blocks on the
    object, under the names [fft_block_0], [fft_block_1], ... in this
    order, block [i] being the one made in pass [i]; reading
    [fft_block_i] succeeds for [0 <= i < decoder_layer] and raises
    [AttributeError] for every other [i]. *)
Theorem decoder_init_sets_exactly_the_layer_blocks :
  forall (get_positional_encoding : Z -> Z -> FastSpeech2.variable)
         (hp : FastSpeech2.Hparams),
    let self := FastSpeech2.__init__ get_positional_encoding hp in
    FastSpeech2.attributes self
    = map (fun i => (FastSpeech2.fft_block_name i,
                     FastSpeech2.new_FFTBlock hp i))
          (range (FastSpeech2.decoder_layer hp))
    /\ List.length (FastSpeech2.attributes self)
       = Z.to_nat (FastSpeech2.decoder_layer hp)
    /\ forall i,
        FastSpeech2.getattr self (FastSpeech2.fft_block_name i)
        = if (0 <=? i) && (i <? FastSpeech2.decoder_layer hp)
          then Ok (FastSpeech2.new_FFTBlock hp i)
          else Raise (AttributeError (FastSpeech2.fft_block_name i)).
Proof.
  intros gpe hp self. subst self.
  pose proof (init_attribute_list gpe hp) as Hattr.
  split; [exact Hattr|]. split.
  - rewrite Hattr, length_map. apply length_range.
  - intros i.
    destruct ((0 <=? i) && (i <? FastSpeech2.decoder_layer hp)) eqn:E.
    + apply andb_true_iff in E as [E1 E2].
      apply Z.leb_le in E1. apply Z.ltb_lt in E2.
      apply init_attributes, in_range. lia.
    + unfold FastSpeech2.getattr. rewrite Hattr, lookup_named_blocks;
        [reflexivity|].
      intros Hin. apply in_range in Hin.
      apply andb_false_iff in E as [E|E];
        [apply Z.leb_gt in E|apply Z.ltb_ge in E]; lia.
Qed.

(** X14: with a mask, [Decoder.call] on a decoder made by [__init__]
    transposes the mask once, with axes (0, 2, 1), hands this one
    transposed mask to every block, from block 0 to block
    [decoder_layer - 1], and fills the output of the last block under the
    transposed mask transposed back. *)
Theorem decoder_call_with_mask :
  forall (get_positional_encoding : Z -> Z -> FastSpeech2.variable)
         (hp : FastSpeech2.Hparams) (x mask : FastSpeech2.variable),
    let pos_enc :=
      get_positional_encoding (FastSpeech2.max_len_mel hp)
                              (FastSpeech2.decoder_hidden hp) in
    let transposed := FastSpeech2.Transpose mask [0; 2; 1] in
    FastSpeech2.call (FastSpeech2.__init__ get_positional_encoding hp)
                     x (Some mask)
    = Ok (FastSpeech2.MaskedFill
            (fold_left
               (fun acc i =>
                  FastSpeech2.Apply (FastSpeech2.new_FFTBlock hp i) acc
                                    (Some transposed))
               (range (FastSpeech2.decoder_layer hp))
               (FastSpeech2.Add2
                  x (FastSpeech2.Tile pos_enc
                                      [FastSpeech2.batch_size hp; 1; 1])))
            (FastSpeech2.Transpose transposed [0; 2; 1])).
Proof.
  intros gpe hp x mask pos_enc transposed.
  apply (call_init gpe hp x (Some mask)).
Qed.

(** X15: [Decoder.call] on an object that lacks one of the blocks its
    hyper-parameters ask for raises [AttributeError] for the first missing
    block, whatever the input and the mask. *)
Theorem decoder_call_raises_at_first_missing_block :
  forall (self : FastSpeech2.Decoder) (x : FastSpeech2.variable)
         (mask : option FastSpeech2.variable) (before after : list Z) (i : Z),
    range (FastSpeech2.decoder_layer (FastSpeech2.hp self))
    = before ++ i :: after ->
    (forall j, In j before ->
               FastSpeech2.lookup (FastSpeech2.attributes self)
                                  (FastSpeech2.fft_block_name j) <> None) ->
    FastSpeech2.lookup (FastSpeech2.attributes self)
                       (FastSpeech2.fft_block_name i) = None ->
    FastSpeech2.call self x mask
    = Raise (AttributeError (FastSpeech2.fft_block_name i)).
Proof.
  intros self x mask before after i Hrange Hbefore Hi.
  unfold FastSpeech2.call. rewrite Hrange, for_fold_app.
  destruct (for_fold_present
              self
              match mask with
              | Some m => Some (FastSpeech2.Transpose m [0; 2; 1])
              | None => None
              end
              before
              (FastSpeech2.Add2
                 x (FastSpeech2.Tile
                      (FastSpeech2.pos_enc self)
                      [FastSpeech2.batch_size (FastSpeech2.hp self); 1; 1]))
              Hbefore) as [y Hy].
  rewrite Hy. cbn [bind result_monad result_bind FastSpeech2.for_fold].
  unfold FastSpeech2.getattr. rewrite Hi. reflexivity.
Qed.

Lemma decoder_call_raises_at_first_missing_block_witness :
  FastSpeech2.call decoder_short_of_a_block (FastSpeech2.Leaf "x") None
  = Raise (AttributeError "fft_block_1").
Proof.
  apply (@decoder_call_raises_at_first_missing_block
           decoder_short_of_a_block (FastSpeech2.Leaf "x") None [0] [] 1).
  - reflexivity.
  - intros j [<-|[]]. discriminate.
  - reflexivity.
Defined.

(** X16: with [decoder_layer <= 0] no block is looked up or applied:
    [Decoder.call] returns [x] plus the tiled positional encoding, filled
    under the mask when there is one, on any decoder object. *)
Theorem decoder_call_without_layers :
  forall (self : FastSpeech2.Decoder) (x : FastSpeech2.variable)
         (mask : option FastSpeech2.variable),
    FastSpeech2.decoder_layer (FastSpeech2.hp self) <= 0 ->
    let sum :=
      FastSpeech2.Add2
        x (FastSpeech2.Tile
             (FastSpeech2.pos_enc self)
             [FastSpeech2.batch_size (FastSpeech2.hp self); 1; 1]) in
    FastSpeech2.call self x mask
    = Ok match mask with
         | None => sum
         | Some m =>
             FastSpeech2.MaskedFill
               sum
               (FastSpeech2.Transpose (FastSpeech2.Transpose m [0; 2; 1])
                                      [0; 2; 1])
         end.
Proof.
  intros self x mask H sum. unfold FastSpeech2.call.
  rewrite (range_nonpositive H). destruct mask; reflexivity.
Qed.

Lemma decoder_call_without_layers_witness :
  FastSpeech2.call
    (FastSpeech2.__init__ FastSpeech2.demo_positional_encoding
                          hp_without_layers)
    (FastSpeech2.Leaf "x") None
  = Ok (FastSpeech2.Add2
          (FastSpeech2.Leaf "x")
          (FastSpeech2.Tile (FastSpeech2.Leaf "pos_enc") [2; 1; 1])).
Proof.
  apply (@decoder_call_without_layers
           (FastSpeech2.__init__ FastSpeech2.demo_positional_encoding
                                 hp_without_layers)
           (FastSpeech2.Leaf "x") None).
  vm_compute. discriminate.
Defined.


(** ** The rank of a worker *)

Section RankFacts.
Context {F : Framework}.






End RankFacts.




(** ** Construction and run together *)

Section FromTheStart.
Context {F : Framework}.



End FromTheStart.


